(** * GDC download wrapper: manifest parsing, completion oracle, verifier
      and orchestration of [scripts/gdc/gdc_download.py]

    The development embeds the Python module function by function.  Python
    [str] values are Rocq [string]s whose characters stand for the code
    points below 256; counters are [nat]; exit codes and the remaining
    integers are [Z]; [pathlib] paths are a record of a root and a list of
    components, with the joining rules of [PurePosixPath]. *)

From Stdlib Require Import ZArith NArith Ascii String DecimalString.
From Stdlib Require DecimalZ DecimalPos.
From stdpp Require Import base option list strings.

(** ** Python string primitives used by the module *)

Module Py.

Definition tab : ascii := "009"%char.
Definition nl : ascii := "010"%char.
Definition slash : ascii := "/"%char.

(** [s.split(sep)] for a separator of one character: never the empty
    list, the empty string splits into one empty field. *)
Fixpoint split (sep : ascii) (s : string) : list string :=
  match s with
  | EmptyString => [EmptyString]
  | String c s' =>
      if Ascii.eqb c sep then EmptyString :: split sep s'
      else match split sep s' with
           | [] => [String c EmptyString]
           | f :: fs => String c f :: fs
           end
  end.

(** [s.rstrip(c)] for one character [c]: every trailing [c] goes. *)
Fixpoint rstrip (c : ascii) (s : string) : string :=
  match s with
  | EmptyString => EmptyString
  | String a s' =>
      match rstrip c s' with
      | EmptyString => if Ascii.eqb a c then EmptyString else String a EmptyString
      | r => String a r
      end
  end.

(** [str.isspace] on the code points below 256. *)
Definition isspace (a : ascii) : bool :=
  let n := nat_of_ascii a in
  ((9 <=? n) && (n <=? 13) || (28 <=? n) && (n <=? 32)
   || (n =? 133) || (n =? 160))%nat.

Fixpoint lstrip_ws (s : string) : string :=
  match s with
  | EmptyString => EmptyString
  | String a s' => if isspace a then lstrip_ws s' else s
  end.

Fixpoint rstrip_ws (s : string) : string :=
  match s with
  | EmptyString => EmptyString
  | String a s' =>
      match rstrip_ws s' with
      | EmptyString => if isspace a then EmptyString else String a EmptyString
      | r => String a r
      end
  end.

(** [s.strip()] *)
Definition strip (s : string) : string := rstrip_ws (lstrip_ws s).

(** [str.lower] on the code points below 256: the ASCII capitals and the
    Latin-1 capitals (192..222 but the multiplication sign 215). *)
Definition lower_char (a : ascii) : ascii :=
  let n := nat_of_ascii a in
  if ((65 <=? n) && (n <=? 90)
      || (192 <=? n) && (n <=? 222) && negb (n =? 215))%nat
  then ascii_of_nat (n + 32) else a.

Fixpoint lower (s : string) : string :=
  match s with
  | EmptyString => EmptyString
  | String a s' => String (lower_char a) (lower s')
  end.

Fixpoint startswith (k s : string) : bool :=
  match k, s with
  | EmptyString, _ => true
  | String a k', String b s' => Ascii.eqb a b && startswith k' s'
  | String _ _, EmptyString => false
  end.

(** [k in s] *)
Fixpoint contains (k s : string) : bool :=
  startswith k s ||
  match s with
  | EmptyString => false
  | String _ s' => contains k s'
  end.

(** [s[:n]] *)
Fixpoint slice_to (n : nat) (s : string) : string :=
  match n, s with
  | S n', String a s' => String a (slice_to n' s')
  | _, _ => EmptyString
  end.

(** [sep.join(l)] *)
Fixpoint join (sep : string) (l : list string) : string :=
  match l with
  | [] => EmptyString
  | [x] => x
  | x :: rest => x +:+ sep +:+ join sep rest
  end.

(** [str(n)] for an [int] *)
Definition str_int (n : Z) : string := NilZero.string_of_int (Z.to_int n).

(** [f"{n:02d}"] *)
Definition fmt_02d (n : Z) : string :=
  if ((0 <=? n) && (n <? 10))%Z then "0" +:+ str_int n else str_int n.

(** Iterating a text file object: the lines in order, each with its
    terminating newline, the last one possibly without.  The text is the
    decoded content, after Python's newline translation. *)
Fixpoint readlines (text : string) : list string :=
  match text with
  | EmptyString => []
  | String c rest =>
      if Ascii.eqb c nl then String c EmptyString :: readlines rest
      else match readlines rest with
           | [] => [String c EmptyString]
           | l :: ls => String c l :: ls
           end
  end.

End Py.

(** ** [pathlib] paths (POSIX flavour) *)

Inductive Root := Relative | Slash | DoubleSlash.

Record Path := { root : Root; names : list string }.

Global Instance Root_eq_dec : EqDecision Root.
Proof. solve_decision. Defined.

Global Instance Path_eq_dec : EqDecision Path.
Proof. solve_decision. Defined.

Module PurePath.

(** The root of a path string: exactly two leading slashes are kept
    apart, one or three and more collapse to one. *)
Definition parse_root (s : string) : Root :=
  match s with
  | String "/"%char (String "/"%char (String "/"%char _)) => Slash
  | String "/"%char (String "/"%char _) => DoubleSlash
  | String "/"%char _ => Slash
  | _ => Relative
  end.

Definition is_component (x : string) : bool :=
  negb (String.eqb x "") && negb (String.eqb x ".").

(** The components of a path string: empty ones and [.] are dropped. *)
Definition parse_names (s : string) : list string :=
  List.filter is_component (Py.split Py.slash s).

(** [Path(s)] *)
Definition of_str (s : string) : Path :=
  {| root := parse_root s; names := parse_names s |}.

Definition is_absolute_str (s : string) : bool :=
  match s with
  | String "/"%char _ => true
  | _ => false
  end.

(** [p / s]: an absolute segment replaces what is on its left. *)
Definition join (p : Path) (s : string) : Path :=
  if is_absolute_str s then of_str s
  else {| root := root p; names := names p ++ parse_names s |}.

Definition root_str (r : Root) : string :=
  match r with
  | Relative => ""
  | Slash => "/"
  | DoubleSlash => "//"
  end.

(** [str(p)] *)
Definition to_str (p : Path) : string :=
  match root p, names p with
  | Relative, [] => "."
  | r, ns => root_str r +:+ Py.join "/" ns
  end.

(** [p.parent] *)
Definition parent (p : Path) : Path :=
  {| root := root p; names := removelast (names p) |}.

End PurePath.

Notation "p // s" := (PurePath.join p s) (at level 40, left associativity).

(** ** The manifest *)

(** A manifest row, [{"id": ..., "filename": ...}]. *)
Record ManifestRow := { id : string; filename : string }.

Global Instance ManifestRow_eq_dec : EqDecision ManifestRow.
Proof. solve_decision. Defined.

(** What the module can raise. *)
Inductive Exn :=
| BadHeader (got : list string)   (* SystemExit: "Manifest header must be: id<tab>filename. Got: ..." *)
| ZeroRows                        (* SystemExit: "Manifest has 0 rows. Nothing to download." *)
| IndexError
| ManifestUnreadable              (* manifest.open fails *)
| LaunchFailed.                   (* subprocess.Popen fails *)

(** The body of the [for line in f] loop, on the rows gathered so far. *)
Definition read_row (rows : list ManifestRow) (line : string)
  : Exn + list ManifestRow :=
  let parts := Py.split Py.tab (Py.rstrip Py.nl line) in
  if (length parts <? 2)%nat then inr rows
  else match parts !! 0%nat, parts !! 1%nat with
       | Some p0, Some p1 => inr (rows ++ [{| id := p0; filename := p1 |}])
       | _, _ => inl IndexError
       end.

Fixpoint read_rows (rows : list ManifestRow) (lines : list string)
  : Exn + list ManifestRow :=
  match lines with
  | [] => inr rows
  | line :: rest =>
      match read_row rows line with
      | inl e => inl e
      | inr rows' => read_rows rows' rest
      end
  end.

(** [f.readline()] followed by the lines left for the iteration. *)
Definition readline (lines : list string) : string * list string :=
  match lines with
  | [] => (EmptyString, [])
  | l :: rest => (l, rest)
  end.

(** [_read_manifest], on the text of the manifest file. *)
Definition _read_manifest (text : string) : Exn + list ManifestRow :=
  let '(first, rest) := readline (Py.readlines text) in
  let header := Py.split Py.tab (Py.rstrip Py.nl first) in
  if bool_decide (take 2 header ≠ ["id"; "filename"])
  then inl (BadHeader (take 5 header))
  else read_rows [] rest.

(** ** The filesystem as the module observes it *)

(** What sits at a path: a file with its content, or a directory with the
    size the platform reports for it. *)
Inductive Node :=
| File (content : string)
| Directory (size : N).

Definition st_size (n : Node) : N :=
  match n with
  | File content => N.of_nat (String.length content)
  | Directory size => size
  end.

(** A filesystem state answers [p.exists()] and [p.stat()]. *)
Definition FS := Path → option Node.

Definition path_exists (fs : FS) (p : Path) : bool :=
  match fs p with
  | Some _ => true
  | None => false
  end.

(** ** Effects: a trace of what the module does to the outside world *)

Inductive Event :=
| Mkdir (p : Path) (parents exist_ok : bool) (* p.mkdir(parents=..., exist_ok=...) *)
| OpenFile (p : Path) (mode : string)    (* p.open("w") or p.open("a") *)
| WriteText (p : Path) (s : string)      (* f.write(s) *)
| WriteRow (p : Path) (row : list string) (* csv.writer(f).writerow(row) *)
| Popen (cmd : list string)              (* subprocess.Popen(cmd, ...) *)
| Stdout (s : string)                    (* sys.stdout.write(s) *)
| Sleep (secs : Z)                       (* time.sleep(secs) *)
| JoinReader.                            (* t.join(timeout=5) *)

(** A computation logs its events and either raises or returns. *)
Definition Eff (A : Type) : Type := list Event * (Exn + A).

Global Instance Eff_ret : MRet Eff := λ A x, ([], inr x).

Global Instance Eff_bind : MBind Eff := λ A B f m,
  match m with
  | (t, inl e) => (t, inl e)
  | (t, inr x) => let '(t', r) := f x in (t ++ t', r)
  end.

Definition emit (e : Event) : Eff unit := ([e], inr tt).
Definition raise {A} (e : Exn) : Eff A := ([], inl e).
Definition lift {A} (r : Exn + A) : Eff A := ([], r).

Definition trace {A} (m : Eff A) : list Event := fst m.
Definition outcome {A} (m : Eff A) : Exn + A := snd m.

(** ** Completion oracle and verifier *)

(** gdc-client stores each file under: <out_dir>/<file_id>/<filename> *)
Definition _expected_path (out_dir : Path) (file_id filename : string) : Path :=
  out_dir // file_id // filename.

Definition str_nat (n : nat) : string := Py.str_int (Z.of_nat n).
Definition str_size (n : N) : string := Py.str_int (Z.of_N n).

(** The [for r in manifest_rows] loop of [_verify_download], on the three
    counters. *)
Fixpoint verify_rows (fs : FS) (out_dir report_csv : Path)
    (manifest_rows : list ManifestRow) (ok missing empty : nat)
  : Eff (nat * nat * nat) :=
  match manifest_rows with
  | [] => mret (ok, missing, empty)
  | r :: rest =>
      let p := _expected_path out_dir (id r) (filename r) in
      if negb (path_exists fs p) then
        emit (WriteRow report_csv
                [id r; filename r; PurePath.to_str p; "MISSING"; ""]);;
        verify_rows fs out_dir report_csv rest ok (S missing) empty
      else
        let size := from_option st_size 0%N (fs p) in
        if (size =? 0)%N then
          emit (WriteRow report_csv
                  [id r; filename r; PurePath.to_str p; "EMPTY"; str_size size]);;
          verify_rows fs out_dir report_csv rest ok missing (S empty)
        else
          emit (WriteRow report_csv
                  [id r; filename r; PurePath.to_str p; "OK"; str_size size]);;
          verify_rows fs out_dir report_csv rest (S ok) missing empty
  end.

Definition report_header : list string :=
  ["id"; "filename"; "expected_path"; "status"; "size_bytes"].

(** Returns: (ok, missing, empty) *)
Definition _verify_download (fs : FS) (manifest_rows : list ManifestRow)
    (out_dir report_csv : Path) : Eff (nat * nat * nat) :=
  emit (Mkdir (PurePath.parent report_csv) true true);;
  emit (OpenFile report_csv "w");;
  emit (WriteRow report_csv report_header);;
  verify_rows fs out_dir report_csv manifest_rows 0 0 0.

Fixpoint count_rows (fs : FS) (out_dir : Path)
    (manifest_rows : list ManifestRow) (done : nat) : nat :=
  match manifest_rows with
  | [] => done
  | r :: rest =>
      if path_exists fs (_expected_path out_dir (id r) (filename r))
      then count_rows fs out_dir rest (S done)
      else count_rows fs out_dir rest done
  end.

Definition _count_completed (fs : FS) (manifest_rows : list ManifestRow)
    (out_dir : Path) : nat :=
  count_rows fs out_dir manifest_rows 0.

(** [_fmt_elapsed], on the integer part [int(seconds)] of its argument. *)
Definition _fmt_elapsed (s : Z) : string :=
  let hh := (s / 3600)%Z in
  let mm := ((s mod 3600) / 60)%Z in
  let ss := (s mod 60)%Z in
  Py.fmt_02d hh +:+ ":" +:+ Py.fmt_02d mm +:+ ":" +:+ Py.fmt_02d ss.

(** ** The orchestrator *)

(** The parsed command line. *)
Module Args.
Record t := {
  manifest : string;
  out_dir : string;
  log_dir : string;
  threads : Z;
  gdc_client : string;
  token_file : option string;
  verify_after : bool;
  fail_on_verify : bool;
  progress_every : Z
}.
End Args.

(** One observation of the running child by the foreground loop: the
    output lines the reader thread consumed since the previous one, the
    filesystem, and [int(time.time() - start)]. *)
Record Snapshot := {
  drained : list string;
  snap_fs : FS;
  elapsed : Z
}.

(** A child process that was launched and exits: the polls at which
    [proc.poll()] is [None], the poll at which the exit status is there,
    the lines consumed while joining the reader, and the exit status. *)
Record ChildRun := {
  running : list Snapshot;
  exited : Snapshot;
  late_lines : list string;
  returncode : Z
}.

(** Everything outside the module that one invocation depends on. *)
Record World := {
  manifest_text : option string;   (* None: the manifest cannot be opened *)
  ts_log : string;                 (* _ts() for the log file *)
  fs_launch : FS;                  (* the output tree before the launch *)
  child : option ChildRun;         (* None: the executable cannot be launched *)
  ts_report : string;              (* _ts() for the report *)
  fs_verify : FS                   (* the output tree at verification *)
}.

(** Truthiness of [args.token_file]. *)
Definition token_given (t : option string) : bool :=
  match t with
  | Some s => negb (String.eqb s "")
  | None => false
  end.

Definition keywords : list string :=
  ["download"; "error"; "retry"; "complete"; "saved"; "skipping"].

(** The [tail_short] of the progress line. *)
Definition tail_short (tail : string) : string :=
  if negb (String.eqb tail "")
     && existsb (λ k, Py.contains k (Py.lower tail)) keywords
  then " | last: " +:+ Py.slice_to 120 tail
  else "".

(** [reader_thread]: every line goes to the log, then becomes the last
    line, stripped. *)
Fixpoint reader_thread (lf : Path) (last_line : string) (lines : list string)
  : Eff string :=
  match lines with
  | [] => mret last_line
  | line :: rest =>
      emit (WriteText lf line);;
      reader_thread lf (Py.strip line) rest
  end.

Section Orchestrator.

(** [f"{(done / total) * 100.0:5.1f}"]: floating point, left abstract. *)
Variable fmt_pct : nat → nat → string.

Definition progress_msg (done total : nat) (elapsed : string)
    (initial_done : nat) (tail : string) : string :=
  String "013"%char "Progress: " +:+ str_nat done +:+ "/" +:+ str_nat total
  +:+ " (" +:+ fmt_pct done total +:+ "%) | elapsed " +:+ elapsed
  +:+ " | resumed_from " +:+ str_nat initial_done +:+ tail_short tail.

(** One turn of the [while True] loop up to the test of [rc]. *)
Definition poll_once (lf out_dir : Path) (manifest_rows : list ManifestRow)
    (total initial_done : nat) (last_line : string) (s : Snapshot)
  : Eff string :=
  tail ← reader_thread lf last_line (drained s);
  let done := _count_completed (snap_fs s) manifest_rows out_dir in
  emit (Stdout (progress_msg done total (_fmt_elapsed (elapsed s))
                  initial_done tail));;
  mret tail.

Fixpoint poll_loop (lf out_dir : Path) (manifest_rows : list ManifestRow)
    (total initial_done : nat) (progress_every : Z) (last_line : string)
    (polls : list Snapshot) (last : Snapshot) : Eff string :=
  match polls with
  | [] =>
      poll_once lf out_dir manifest_rows total initial_done last_line last
  | s :: rest =>
      tail ← poll_once lf out_dir manifest_rows total initial_done last_line s;
      emit (Sleep (Z.max 1 progress_every));;
      poll_loop lf out_dir manifest_rows total initial_done progress_every
        tail rest last
  end.

Definition main (args : Args.t) (w : World) : Eff Z :=
  let manifest := PurePath.of_str (Args.manifest args) in
  let out_dir := PurePath.of_str (Args.out_dir args) in
  let log_dir := PurePath.of_str (Args.log_dir args) in
  emit (Mkdir out_dir true true);;
  emit (Mkdir log_dir true true);;
  manifest_rows ←
    match manifest_text w with
    | None => raise ManifestUnreadable
    | Some text => lift (_read_manifest text)
    end;
  let total := length manifest_rows in
  if (total =? 0)%nat then raise ZeroRows
  else
    let cmd :=
      [Args.gdc_client args; "download";
       "-m"; PurePath.to_str manifest;
       "-d"; PurePath.to_str out_dir;
       "-n"; Py.str_int (Args.threads args)]
      ++ (if token_given (Args.token_file args)
          then ["-t"; default "" (Args.token_file args)] else []) in
    let log_file := log_dir // ("gdc_download_" +:+ ts_log w +:+ ".log") in
    emit (OpenFile log_file "w");;
    emit (WriteText log_file ("[CMD] " +:+ Py.join " " cmd +:+ "
"));;
    emit (WriteText log_file ("[MANIFEST] " +:+ PurePath.to_str manifest +:+ "
"));;
    emit (WriteText log_file ("[OUT_DIR] " +:+ PurePath.to_str out_dir +:+ "
"));;
    emit (WriteText log_file ("[THREADS] " +:+ Py.str_int (Args.threads args) +:+ "
"));;
    (if token_given (Args.token_file args)
     then emit (WriteText log_file
                  ("[TOKEN_FILE] " +:+ default "" (Args.token_file args) +:+ "
"))
     else mret tt);;
    emit (WriteText log_file "
");;
    let initial_done := _count_completed (fs_launch w) manifest_rows out_dir in
    proc ←
      match child w with
      | None => raise LaunchFailed
      | Some run => emit (Popen cmd);; mret run
      end;
    tail ← poll_loop log_file out_dir manifest_rows total initial_done
             (Args.progress_every args) "" (running proc) (exited proc);
    emit (Stdout "
");;
    emit JoinReader;;
    reader_thread log_file tail (late_lines proc);;
    if negb (returncode proc =? 0)%Z then
      emit (WriteText log_file
              ("
[ERROR] gdc-client exited with code "
               +:+ Py.str_int (returncode proc) +:+ "
"));;
      mret (returncode proc)
    else if Args.verify_after args then
      let report := log_dir // ("download_verify_" +:+ ts_report w +:+ ".csv") in
      '(ok, missing, empty) ←
        _verify_download (fs_verify w) manifest_rows out_dir report;
      let summary :=
        "[VERIFY] OK=" +:+ str_nat ok +:+ " MISSING=" +:+ str_nat missing
        +:+ " EMPTY=" +:+ str_nat empty +:+ "
" +:+ "[VERIFY] Report: " +:+ PurePath.to_str report +:+ "
" in
      emit (OpenFile log_file "a");;
      emit (WriteText log_file ("
" +:+ summary));;
      emit (Stdout (Py.rstrip_ws summary +:+ "
"));;
      if ((0 <? missing)%nat || (0 <? empty)%nat) && Args.fail_on_verify args
      then mret 2%Z
      else mret 0%Z
    else mret 0%Z.

End Orchestrator.

(** ** Vocabulary of the statements *)

(** The tab-separated fields of a line, [line.rstrip("\n").split("\t")]. *)
Definition line_fields (line : string) : list string :=
  Py.split Py.tab (Py.rstrip Py.nl line).

(** The [header] of [_read_manifest]: the fields of the first line. *)
Definition manifest_header (text : string) : list string :=
  line_fields (fst (readline (Py.readlines text))).

(** The layout as the specification words it, [output_root/id/filename]:
    under the output root, one directory named by the identifier, and in
    it the file name. *)
Definition layout (output_root : Path) (file_id filename : string) : Path :=
  {| root := root output_root;
     names := names output_root ++ [file_id; filename] |}.

(** A string that is one path component: not empty, not [.], no slash. *)
Definition single_component (s : string) : bool :=
  PurePath.is_component s && negb (Py.contains "/" s).

(** The status column of a report record. *)
Definition status_count (status : string) (recs : list (list string)) : nat :=
  length (filter (λ rec, rec !! 3%nat = Some status) recs).

(** [rec] is a report record of the row [r]: its identifier, file name and
    expected path, with the status MISSING exactly when the path does not
    exist, EMPTY exactly when it exists with size zero, and OK exactly when
    it exists with another size. *)
Definition classified (fs : FS) (out_dir : Path) (r : ManifestRow)
    (rec : list string) : Prop :=
  let p := _expected_path out_dir (id r) (filename r) in
  ∃ status size,
    rec = [id r; filename r; PurePath.to_str p; status; size]
    ∧ (status = "MISSING" ∨ status = "EMPTY" ∨ status = "OK")
    ∧ (status = "MISSING" ↔ fs p = None)
    ∧ (status = "EMPTY" ↔ ∃ n, fs p = Some n ∧ st_size n = 0%N)
    ∧ (status = "OK" ↔ ∃ n, fs p = Some n ∧ st_size n ≠ 0%N).

(** [line] contains [k] when case is ignored. *)
Definition contains_ci (k line : string) : Prop :=
  ∃ pre mid post, line = pre +:+ mid +:+ post ∧ Py.lower mid = k.

(** No character of [k] is white space. *)
Fixpoint nospace (k : string) : bool :=
  match k with
  | EmptyString => true
  | String a k' => negb (Py.isspace a) && nospace k'
  end.

(** The keyword list as the specification words it. *)
Definition spec_keywords : list string :=
  ["transfer"; "error"; "retry"; "complete"; "saved"; "skipping"].

(** The manifest of [w] parses to the rows [rows], not none, and the child
    [proc] is launched. *)
Definition launches (w : World) (rows : list ManifestRow) (proc : ChildRun)
  : Prop :=
  ∃ text, manifest_text w = Some text ∧ _read_manifest text = inr rows
          ∧ rows ≠ [] ∧ child w = Some proc.

Definition is_report_write (e : Event) : bool :=
  match e with
  | WriteRow _ _ => true
  | _ => false
  end.

Definition is_popen (e : Event) : bool :=
  match e with
  | Popen _ => true
  | _ => false
  end.

(** The events that create something: a directory, a file, a report
    record, a process. *)
Definition creates (e : Event) : bool :=
  match e with
  | Mkdir _ _ _ | OpenFile _ _ | WriteRow _ _ | Popen _ => true
  | _ => false
  end.

(** The files a trace opens. *)
Definition opened (t : list Event) : list Path :=
  omap (λ e, match e with OpenFile p _ => Some p | _ => None end) t.

(** Files are only created between [fs1] and [fs2]. *)
Definition fs_grows (fs1 fs2 : FS) : Prop :=
  ∀ p, path_exists fs1 p = true → path_exists fs2 p = true.

(** ** Sample runs *)

Module Sample.

Definition args : Args.t :=
{| Args.manifest := "manifest.tsv"; Args.out_dir := "out";
   Args.log_dir := "logs"; Args.threads := 8;
   Args.gdc_client := "gdc-client"; Args.token_file := None;
   Args.verify_after := true; Args.fail_on_verify := true;
   Args.progress_every := 10 |}.

Definition text : string := "id	filename
id1	f1.txt
id2	f2.txt
id3	f3.txt
".

Definition rows : list ManifestRow :=
[{| id := "id1"; filename := "f1.txt" |};
 {| id := "id2"; filename := "f2.txt" |};
 {| id := "id3"; filename := "f3.txt" |}].

Definition fs_empty : FS := λ _, None.

(** [id1/f1.txt] with three bytes, [id2/f2.txt] with none, no [id3/f3.txt]. *)
Definition fs_partial : FS := λ p,
if bool_decide (p = PurePath.of_str "out/id1/f1.txt") then Some (File "abc")
else if bool_decide (p = PurePath.of_str "out/id2/f2.txt") then Some (File "")
else None.

Definition fmt_pct : nat → nat → string := λ _ _, "  0.0".

(** A child that is seen running once, then exited with [code]. *)
Definition proc (code : Z) : ChildRun :=
{| running := [{| drained := ["Downloading id1
"];
                  snap_fs := fs_empty; elapsed := 0 |}];
   exited := {| drained := ["done
"]; snap_fs := fs_partial; elapsed := 12 |};
   late_lines := [];
   returncode := code |}.

Definition world (code : Z) : World :=
{| manifest_text := Some text;
   ts_log := "20240101_000000";
   fs_launch := fs_empty;
   child := Some (proc code);
   ts_report := "20240101_000100";
   fs_verify := fs_partial |}.

(** A manifest with a header and no row. *)
Definition world_no_rows : World :=
{| manifest_text := Some "id	filename
";
   ts_log := "20240101_000000";
   fs_launch := fs_empty;
   child := Some (proc 0);
   ts_report := "20240101_000100";
   fs_verify := fs_empty |}.

End Sample.

(** ** Vocabulary of the further properties *)

(** The characters of a string. *)
Definition chars (s : string) : list ascii := list_ascii_of_string s.

(** The row a data line gives, if it gives one. *)
Definition row_of_line (line : string) : option ManifestRow :=
  match line_fields line with
  | p0 :: p1 :: _ => Some {| id := p0; filename := p1 |}
  | _ => None
  end.

(** The lines after the header line. *)
Definition data_lines (text : string) : list string :=
  snd (readline (Py.readlines text)).

(** The record of one row, as the three branches of the verifier loop
    write it. *)
Definition report_record (fs : FS) (out_dir : Path) (r : ManifestRow)
  : list string :=
  let p := _expected_path out_dir (id r) (filename r) in
  match fs p with
  | None => [id r; filename r; PurePath.to_str p; "MISSING"; ""]
  | Some n =>
      [id r; filename r; PurePath.to_str p;
       if (st_size n =? 0)%N then "EMPTY" else "OK"; str_size (st_size n)]
  end.

(** [int(s)] on the decimal strings [str] produces. *)
Definition parse_int (s : string) : option Z :=
  Z.of_int <$> NilZero.int_of_string s.

(** The texts written to files, the texts printed and the sleeps of a
    trace, each in order. *)
Definition written (t : list Event) : list string :=
  omap (λ e, match e with WriteText _ s => Some s | _ => None end) t.

Definition printed (t : list Event) : list string :=
  omap (λ e, match e with Stdout s => Some s | _ => None end) t.

Definition slept (t : list Event) : list Z :=
  omap (λ e, match e with Sleep z => Some z | _ => None end) t.


(** The last line recorded after [lines] were consumed. *)
Definition last_line_after (last_line : string) (lines : list string)
  : string :=
  from_option Py.strip last_line (last lines).

(** ** Further sample runs *)

Module More.

(** The sample command line without [--verify_after]. *)
Definition args_no_verify : Args.t :=
  {| Args.manifest := "manifest.tsv"; Args.out_dir := "out";
     Args.log_dir := "logs"; Args.threads := 8;
     Args.gdc_client := "gdc-client"; Args.token_file := None;
     Args.verify_after := false; Args.fail_on_verify := true;
     Args.progress_every := 10 |}.

(** The manifest cannot be opened. *)
Definition world_unreadable : World :=
  {| manifest_text := None;
     ts_log := "20240101_000000";
     fs_launch := Sample.fs_empty;
     child := None;
     ts_report := "20240101_000100";
     fs_verify := Sample.fs_empty |}.

(** The executable cannot be launched. *)
Definition world_no_launch : World :=
  {| manifest_text := Some Sample.text;
     ts_log := "20240101_000000";
     fs_launch := Sample.fs_empty;
     child := None;
     ts_report := "20240101_000100";
     fs_verify := Sample.fs_empty |}.

End More.

(** * Properties *)

(** ** The effect monad *)

Lemma bind_emit {A} (e : Event) (k : Eff A) :
  (emit e;; k) = (e :: trace k, outcome k).
Proof. by destruct k. Qed.

Lemma bind_returns {A B} (m : Eff A) (f : A → Eff B) t x :
  m = (t, inr x) → (m ≫= f) = (t ++ trace (f x), outcome (f x)).
Proof. intros ->. unfold mbind, Eff_bind. by destruct (f x). Qed.

Lemma bind_raises {A B} (m : Eff A) (f : A → Eff B) t e :
  m = (t, inl e) → (m ≫= f) = (t, inl e).
Proof. by intros ->. Qed.

Lemma eff_eta {A} (m : Eff A) : m = (trace m, outcome m).
Proof. by destruct m. Qed.

(** ** Strings *)

Lemma str_app_assoc (s1 s2 s3 : string) :
  (s1 +:+ s2) +:+ s3 = s1 +:+ (s2 +:+ s3).
Proof.
  induction s1 as [|a s1 IH]; [done|].
  change (String a ((s1 +:+ s2) +:+ s3) = String a (s1 +:+ (s2 +:+ s3))).
  by rewrite IH.
Qed.

Lemma lower_app (s1 s2 : string) :
  Py.lower (s1 +:+ s2) = Py.lower s1 +:+ Py.lower s2.
Proof.
  induction s1 as [|a s1 IH]; [done|].
  change (String (Py.lower_char a) (Py.lower (s1 +:+ s2))
          = String (Py.lower_char a) (Py.lower s1 +:+ Py.lower s2)).
  by rewrite IH.
Qed.

Lemma lower_split (s a b : string) :
  Py.lower s = a +:+ b →
  ∃ s1 s2, s = s1 +:+ s2 ∧ Py.lower s1 = a ∧ Py.lower s2 = b.
Proof.
  revert s. induction a as [|c a IH]; intros s H.
  - by exists "", s.
  - destruct s as [|d s]; [done|].
    change (String (Py.lower_char d) (Py.lower s) = String c (a +:+ b)) in H.
    injection H as Hc Hs. destruct (IH s Hs) as (s1 & s2 & -> & <- & <-).
    exists (String d s1), s2. split; [done|]. split; [|done].
    cbn [Py.lower]. by rewrite Hc.
Qed.

Lemma startswith_spec (k s : string) :
  Py.startswith k s = true ↔ ∃ post, s = k +:+ post.
Proof.
  revert s. induction k as [|a k IH]; intros s.
  - split; [by exists s|done].
  - destruct s as [|b s]; cbn [Py.startswith].
    + split; [done|]. by intros [post ?].
    + rewrite andb_true_iff, Ascii.eqb_eq, IH. split.
      * intros [-> [post ->]]. by exists post.
      * intros [post H].
        change (String b s = String a (k +:+ post)) in H.
        injection H as -> ->. eauto.
Qed.

Lemma contains_spec (k s : string) :
  Py.contains k s = true ↔ ∃ pre post, s = pre +:+ k +:+ post.
Proof.
  induction s as [|b s IH]; cbn [Py.contains]; rewrite orb_true_iff.
  - rewrite startswith_spec. split.
    + intros [[post H]|?]; [|done]. by exists "", post.
    + intros (pre & post & H). left. destruct pre; [by exists post|done].
  - rewrite startswith_spec, IH. split.
    + intros [[post H]|(pre & post & ->)]; [by exists "", post|].
      by exists (String b pre), post.
    + intros (pre & post & H). destruct pre as [|c pre].
      * left. by exists post.
      * right. change (String b s = String c (pre +:+ k +:+ post)) in H.
        injection H as -> ->. eauto.
Qed.

Lemma contains_lower_ci (k line : string) :
  Py.contains k (Py.lower line) = true ↔ contains_ci k line.
Proof.
  rewrite contains_spec. unfold contains_ci. split.
  - intros (pre & post & H).
    destruct (lower_split _ _ _ H) as (s1 & s23 & -> & <- & H23).
    destruct (lower_split _ _ _ H23) as (s2 & s3 & -> & <- & <-).
    by exists s1, s2, s3.
  - intros (pre & mid & post & -> & <-).
    exists (Py.lower pre), (Py.lower post). by rewrite !lower_app.
Qed.

Lemma isspace_lower_char (a : ascii) :
  Py.isspace (Py.lower_char a) = Py.isspace a.
Proof. by destruct a as [[] [] [] [] [] [] [] []]; vm_compute. Qed.

Lemma lower_lstrip_ws (s : string) :
  Py.lower (Py.lstrip_ws s) = Py.lstrip_ws (Py.lower s).
Proof.
  induction s as [|a s IH]; [done|].
  cbn [Py.lstrip_ws Py.lower]. rewrite isspace_lower_char.
  by destruct (Py.isspace a).
Qed.

Lemma lower_rstrip_ws (s : string) :
  Py.lower (Py.rstrip_ws s) = Py.rstrip_ws (Py.lower s).
Proof.
  induction s as [|a s IH]; [done|].
  cbn [Py.rstrip_ws Py.lower]. rewrite <- IH, isspace_lower_char.
  destruct (Py.rstrip_ws s); [|done].
  by destruct (Py.isspace a).
Qed.

Lemma startswith_rstrip_ws (s : string) : ∀ k,
  nospace k = true →
  Py.startswith k (Py.rstrip_ws s) = Py.startswith k s.
Proof.
  induction s as [|a s IH]; intros [|b k] Hk; try done.
  cbn [nospace] in Hk. apply andb_true_iff in Hk as [Hb Hk].
  apply negb_true_iff in Hb. specialize (IH k Hk).
  cbn [Py.rstrip_ws]. destruct (Py.rstrip_ws s) as [|c r] eqn:Hr.
  - destruct (Py.isspace a) eqn:Ha; cbn [Py.startswith].
    + destruct (Ascii.eqb_spec b a) as [->|]; [congruence|done].
    + by rewrite IH.
  - cbn [Py.startswith] in *. by rewrite IH.
Qed.

Lemma contains_rstrip_ws (k s : string) :
  nospace k = true → k ≠ "" →
  Py.contains k (Py.rstrip_ws s) = Py.contains k s.
Proof.
  intros Hk Hne. induction s as [|a s IH]; [done|].
  cbn [Py.contains].
  rewrite <- (startswith_rstrip_ws (String a s) k Hk), <- IH.
  cbn [Py.rstrip_ws]. destruct (Py.rstrip_ws s) as [|c r] eqn:Hr.
  - destruct (Py.isspace a); [|done].
    destruct k; [done|]. cbn [Py.contains Py.startswith]. done.
  - done.
Qed.

Lemma contains_lstrip_ws (k s : string) :
  nospace k = true → k ≠ "" →
  Py.contains k (Py.lstrip_ws s) = Py.contains k s.
Proof.
  intros Hk Hne. destruct k as [|b k]; [done|].
  cbn [nospace] in Hk. apply andb_true_iff in Hk as [Hb _].
  apply negb_true_iff in Hb.
  induction s as [|a s IH]; [done|].
  cbn [Py.lstrip_ws]. destruct (Py.isspace a) eqn:Ha; [|done].
  rewrite IH. cbn [Py.contains Py.startswith].
  destruct (Ascii.eqb_spec b a) as [->|]; [congruence|done].
Qed.

Lemma contains_lower_strip (k line : string) :
  nospace k = true → k ≠ "" →
  Py.contains k (Py.lower (Py.strip line)) = Py.contains k (Py.lower line).
Proof.
  intros Hk Hne. unfold Py.strip.
  rewrite lower_rstrip_ws, lower_lstrip_ws.
  by rewrite contains_rstrip_ws, contains_lstrip_ws.
Qed.

Lemma slice_to_length (n : nat) (s : string) :
  String.length (Py.slice_to n s) ≤ n.
Proof.
  revert s. induction n as [|n IH]; intros [|a s]; cbn; try lia.
  specialize (IH s). lia.
Qed.

Lemma keywords_plain (k : string) :
  k ∈ keywords → nospace k = true ∧ k ≠ "".
Proof.
  unfold keywords. rewrite !elem_of_cons, elem_of_nil.
  intros [->|[->|[->|[->|[->|[->|[]]]]]]]; by vm_compute.
Qed.

Lemma existsb_elem_of {A} (f : A → bool) (l : list A) :
  existsb f l = true ↔ ∃ x, x ∈ l ∧ f x = true.
Proof.
  rewrite existsb_exists. by setoid_rewrite list_elem_of_In.
Qed.

(** ** Manifest parsing *)

Lemma read_row_spec (rows : list ManifestRow) (line : string) :
  (length (line_fields line) < 2 ∧ read_row rows line = inr rows)
  ∨ (∃ p0 p1 extra, line_fields line = p0 :: p1 :: extra
       ∧ read_row rows line = inr (rows ++ [{| id := p0; filename := p1 |}])).
Proof.
  unfold read_row, line_fields.
  destruct (Py.split Py.tab (Py.rstrip Py.nl line)) as [|p0 [|p1 extra]];
    cbn [length]; [left|left|right].
  - split; [lia|done].
  - split; [lia|done].
  - by exists p0, p1, extra.
Qed.

Lemma read_rows_acc (lines : list string) : ∀ acc,
  ∃ rows, read_rows [] lines = inr rows
          ∧ read_rows acc lines = inr (acc ++ rows).
Proof.
  induction lines as [|line lines IH]; intros acc.
  - exists []. by rewrite app_nil_r.
  - cbn [read_rows].
    destruct (read_row_spec [] line) as [[Hl0 H0]|(p0 & p1 & extra & Hf & H0)];
      destruct (read_row_spec acc line) as [[Hl H1]|(q0 & q1 & extra' & Hf' & H1)];
      rewrite ?H0, ?H1.
    + apply IH.
    + rewrite Hf' in Hl0. cbn in Hl0. lia.
    + rewrite Hf in Hl. cbn in Hl. lia.
    + rewrite Hf in Hf'. simplify_eq. cbn [app].
      destruct (IH [{| id := q0; filename := q1 |}]) as (rows & Hr & Hs).
      destruct (IH (acc ++ [{| id := q0; filename := q1 |}])) as (rows' & Hr' & Hs').
      rewrite Hr in Hr'. simplify_eq. rewrite Hs, Hs'.
      eexists. split; [done|]. cbn [app]. by rewrite <- app_assoc.
Qed.

Lemma read_rows_app (l1 l2 : list string) rows1 rows2 :
  read_rows [] l1 = inr rows1 → read_rows [] l2 = inr rows2 →
  read_rows [] (l1 ++ l2) = inr (rows1 ++ rows2).
Proof.
  revert rows1. induction l1 as [|line l1 IH]; intros rows1 H1 H2.
  - by simplify_eq/=.
  - cbn [app read_rows] in *.
    destruct (read_row [] line) as [e|acc]; [done|].
    destruct (read_rows_acc l1 acc) as (r1 & Hr1 & Ha1).
    destruct (read_rows_acc (l1 ++ l2) acc) as (r12 & Hr12 & Ha12).
    rewrite Ha12. rewrite Ha1 in H1. simplify_eq.
    rewrite (IH r1 Hr1 H2) in Hr12. simplify_eq. by rewrite app_assoc.
Qed.

Lemma read_manifest_unfold (text : string) :
  _read_manifest text
  = if bool_decide (take 2 (manifest_header text) ≠ ["id"; "filename"])
    then inl (BadHeader (take 5 (manifest_header text)))
    else read_rows [] (snd (readline (Py.readlines text))).
Proof.
  unfold _read_manifest, manifest_header, line_fields.
  by destruct (readline (Py.readlines text)).
Qed.

(** ** Completion oracle and verifier *)

Section Oracle.

Variables (fs : FS) (out_dir report : Path).

Implicit Types (rows : list ManifestRow) (r : ManifestRow).

Lemma status_count_hit status rec recs :
  rec !! 3%nat = Some status →
  status_count status (rec :: recs) = S (status_count status recs).
Proof.
  intros H. unfold status_count. by rewrite filter_cons_True.
Qed.

Lemma status_count_miss status rec recs :
  rec !! 3%nat ≠ Some status →
  status_count status (rec :: recs) = status_count status recs.
Proof.
  intros H. unfold status_count. by rewrite filter_cons_False.
Qed.

Lemma verify_rows_spec rows : ∀ ok missing empty,
  ∃ recs,
    verify_rows fs out_dir report rows ok missing empty
    = (WriteRow report <$> recs,
       inr ((ok + status_count "OK" recs)%nat,
            (missing + status_count "MISSING" recs)%nat,
            (empty + status_count "EMPTY" recs)%nat))
    ∧ Forall2 (classified fs out_dir) rows recs.
Proof.
  induction rows as [|r rows IH]; intros ok missing empty.
  - exists []. split; [|constructor].
    cbn [verify_rows]. unfold status_count. rewrite filter_nil.
    cbn [length]. by rewrite !Nat.add_0_r.
  - set (p := _expected_path out_dir (id r) (filename r)).
    assert (∀ status size recs,
      (WriteRow report [id r; filename r; PurePath.to_str p; status; size]
         :: (WriteRow report <$> recs))
      = WriteRow report <$>
          ([id r; filename r; PurePath.to_str p; status; size] :: recs))
      as Hcons by done.
    cbn [verify_rows]. fold p. unfold path_exists.
    destruct (fs p) as [n|] eqn:Hp; cbn [negb from_option];
      [destruct (N.eqb_spec (st_size n) 0) as [Hz|Hnz]|].
    + destruct (IH ok missing (S empty)) as (recs & Heq & Hall).
      rewrite bind_emit, Heq. cbn [trace outcome fst snd].
      rewrite Hcons.
      match goal with |- context [WriteRow report <$> ?l] => exists l end.
      split.
      { rewrite (status_count_hit "EMPTY"), (status_count_miss "OK"),
          (status_count_miss "MISSING") by done.
        by rewrite ?Nat.add_succ_r. }
      constructor; [|done]. do 2 eexists. split; [done|]. fold p. rewrite Hp.
      split; [by right; left|]. split; [by split|].
      split; [split; [by eauto|done]|].
      split; [done|]. by intros (n' & [= <-] & ?).
    + destruct (IH (S ok) missing empty) as (recs & Heq & Hall).
      rewrite bind_emit, Heq. cbn [trace outcome fst snd].
      rewrite Hcons.
      match goal with |- context [WriteRow report <$> ?l] => exists l end.
      split.
      { rewrite (status_count_hit "OK"), (status_count_miss "MISSING"),
          (status_count_miss "EMPTY") by done.
        by rewrite ?Nat.add_succ_r. }
      constructor; [|done]. do 2 eexists. split; [done|]. fold p. rewrite Hp.
      split; [by right; right|]. split; [by split|].
      split; [|split; [by eauto|done]].
      split; [done|]. by intros (n' & [= <-] & ?).
    + destruct (IH ok (S missing) empty) as (recs & Heq & Hall).
      rewrite bind_emit, Heq. cbn [trace outcome fst snd].
      rewrite Hcons.
      match goal with |- context [WriteRow report <$> ?l] => exists l end.
      split.
      { rewrite (status_count_hit "MISSING"), (status_count_miss "OK"),
          (status_count_miss "EMPTY") by done.
        by rewrite ?Nat.add_succ_r. }
      constructor; [|done]. do 2 eexists. split; [done|]. fold p. rewrite Hp.
      split; [by left|]. split; [by split|].
      split; (split; [done|]); by intros (? & ? & ?).
Qed.
Lemma count_rows_spec rows recs :
  Forall2 (classified fs out_dir) rows recs →
  (∀ done, count_rows fs out_dir rows done
           = (done + status_count "OK" recs + status_count "EMPTY" recs)%nat)
  ∧ length rows
    = (status_count "OK" recs + status_count "MISSING" recs
       + status_count "EMPTY" recs)%nat.
Proof.
  induction 1 as [|r rec rows recs Hc _ [IHc IHl]].
  - split; [intros done|]; unfold status_count; rewrite !filter_nil;
      cbn [count_rows length]; lia.
  - destruct Hc as (status & size & -> & Hst & Hm & He & Ho).
    cbn [count_rows length]. unfold path_exists.
    destruct (fs (_expected_path out_dir (id r) (filename r))) as [n|] eqn:Hp.
    + destruct Hst as [->| [->| ->]].
      * by destruct Hm as [Hm _]; specialize (Hm eq_refl).
      * rewrite (status_count_hit "EMPTY"), (status_count_miss "OK"),
          (status_count_miss "MISSING") by done.
        split; [intros done; rewrite IHc|]; lia.
      * rewrite (status_count_hit "OK"), (status_count_miss "EMPTY"),
          (status_count_miss "MISSING") by done.
        split; [intros done; rewrite IHc|]; lia.
    + assert (status = "MISSING") as -> by by apply Hm.
      rewrite (status_count_hit "MISSING"), (status_count_miss "EMPTY"),
        (status_count_miss "OK") by done.
      split; [intros done; rewrite IHc|]; lia.
Qed.

End Oracle.

Lemma count_rows_mono (fs1 fs2 : FS) (out_dir : Path) :
  fs_grows fs1 fs2 →
  ∀ (rows : list ManifestRow) (d1 d2 : nat), d1 ≤ d2 →
    count_rows fs1 out_dir rows d1 ≤ count_rows fs2 out_dir rows d2.
Proof.
  intros Hgrow. induction rows as [|r rows IH]; intros d1 d2 Hd; [done|].
  cbn [count_rows].
  destruct (path_exists fs1 _) eqn:H1.
  - rewrite (Hgrow _ H1). apply IH. lia.
  - destruct (path_exists fs2 _); apply IH; lia.
Qed.

(** C1: the verifier writes one record per row, in manifest order, after
    the column header; a record is MISSING exactly when the expected path
    does not exist, EMPTY exactly when it exists with size zero, OK exactly
    when it exists with a nonzero size, whatever the content; and the triple
    returned counts the records of each status, in the order
    (ok, missing, empty). *)
Theorem verify_download_classifies (fs : FS) (rows : list ManifestRow)
    (out_dir report : Path) :
  ∃ recs,
    _verify_download fs rows out_dir report
    = ([Mkdir (PurePath.parent report) true true; OpenFile report "w";
        WriteRow report report_header] ++ (WriteRow report <$> recs),
       inr (status_count "OK" recs, status_count "MISSING" recs,
            status_count "EMPTY" recs))
    ∧ Forall2 (classified fs out_dir) rows recs.
Proof.
  destruct (verify_rows_spec fs out_dir report rows 0 0 0) as (recs & Heq & Hall).
  exists recs. split; [|done].
  unfold _verify_download. by rewrite !bind_emit, Heq.
Qed.

(** C9: the completion count is monotone in the filesystem state: when
    every path that exists in one state exists in the other, the count in
    the first is at most the count in the second; hence along states in
    which files are only created, never removed, a later count is never
    below an earlier one. *)
Theorem count_completed_monotone (rows : list ManifestRow) (out_dir : Path) :
  (∀ fs1 fs2, fs_grows fs1 fs2 →
     _count_completed fs1 rows out_dir ≤ _count_completed fs2 rows out_dir)
  ∧ (∀ states : list FS,
       (∀ i s1 s2, states !! i = Some s1 → states !! S i = Some s2 →
                   fs_grows s1 s2) →
       ∀ i j s1 s2, i ≤ j → states !! i = Some s1 → states !! j = Some s2 →
         _count_completed s1 rows out_dir ≤ _count_completed s2 rows out_dir).
Proof.
  assert (∀ fs1 fs2, fs_grows fs1 fs2 →
     _count_completed fs1 rows out_dir ≤ _count_completed fs2 rows out_dir)
    as Hmono.
  { intros fs1 fs2 H. by apply count_rows_mono. }
  split; [done|].
  intros states Hchain i j s1 s2 Hij H1 H2.
  revert s2 H2. induction Hij as [|j Hij IH]; intros s2 H2.
  - by simplify_eq.
  - destruct (states !! j) as [s|] eqn:Hj.
    + etrans; [by apply IH|]. apply Hmono. by eapply Hchain.
    + apply lookup_ge_None in Hj. apply lookup_lt_Some in H2. lia.
Qed.

(** C10: on the same rows and the same filesystem state, the completion
    count is the verifier's ok count plus its empty count (a file of zero
    bytes counts as completed though the verifier reports it EMPTY), and
    the three counts of the verifier add up to the number of rows. *)
Theorem count_completed_is_ok_plus_empty (fs : FS) (rows : list ManifestRow)
    (out_dir report : Path) :
  ∃ ok missing empty,
    outcome (_verify_download fs rows out_dir report) = inr (ok, missing, empty)
    ∧ _count_completed fs rows out_dir = (ok + empty)%nat
    ∧ (ok + missing + empty)%nat = length rows.
Proof.
  destruct (verify_rows_spec fs out_dir report rows 0 0 0) as (recs & Heq & Hall).
  destruct (count_rows_spec fs out_dir rows recs Hall) as [Hc Hl].
  exists (status_count "OK" recs), (status_count "MISSING" recs),
    (status_count "EMPTY" recs).
  split; [|split].
  - unfold _verify_download. by rewrite !bind_emit, Heq.
  - unfold _count_completed. by rewrite Hc.
  - by rewrite Hl.
Qed.

(** C4, as amended: parsing raises exactly when the first two fields of the
    first line are not [id] and [filename]; the error then carries the
    first fields of that line and is settled by that line alone, whatever
    the data lines are; a header with further columns after [id] and
    [filename] is accepted. *)
Theorem read_manifest_header_check (text : string) :
  ((∃ e, _read_manifest text = inl e)
   ↔ take 2 (manifest_header text) ≠ ["id"; "filename"])
  ∧ (take 2 (manifest_header text) ≠ ["id"; "filename"] →
     ∀ text', manifest_header text' = manifest_header text →
       _read_manifest text' = inl (BadHeader (take 5 (manifest_header text))))
  ∧ (∀ more, manifest_header text = "id" :: "filename" :: more →
     ∃ rows, _read_manifest text = inr rows).
Proof.
  split; [split|split].
  - intros [e He] Hok. rewrite read_manifest_unfold in He.
    rewrite bool_decide_eq_false_2 in He by by intros ?.
    destruct (read_rows_acc (snd (readline (Py.readlines text))) [])
      as (rows & Hr & _). by rewrite Hr in He.
  - intros Hbad. eexists. rewrite read_manifest_unfold.
    by rewrite bool_decide_eq_true_2.
  - intros Hbad text' Hsame. rewrite read_manifest_unfold, Hsame.
    by rewrite bool_decide_eq_true_2.
  - intros more Hh. rewrite read_manifest_unfold, Hh.
    rewrite bool_decide_eq_false_2 by by intros ?.
    destruct (read_rows_acc (snd (readline (Py.readlines text))) [])
      as (rows & Hr & _). eauto.
Qed.

(** C4, as stated, fails: a header line with a third column is not exactly
    [id<TAB>filename], and the manifest is parsed all the same. *)
Lemma header_with_extra_column_accepted :
  ¬ (∀ text, (∃ e, _read_manifest text = inl e)
             ↔ manifest_header text ≠ ["id"; "filename"]).
Proof.
  intros H.
  destruct (proj2 (H "id	filename	md5
a1	f1.bam	0f3c
")) as [e He]; [by vm_compute|].
  vm_compute in He. discriminate.
Qed.

(** C7: in a manifest with a valid header, a data line with fewer than two
    tab-separated fields adds no row and raises nothing, the rows of the
    lines before and after it being those they give on their own; a data
    line with two fields or more gives the row of its first two fields,
    the further fields being ignored. *)
Theorem read_manifest_data_lines (text first line : string)
    (before after : list string) :
  Py.readlines text = first :: before ++ line :: after →
  take 2 (line_fields first) = ["id"; "filename"] →
  ∃ rows_before rows_after,
    read_rows [] before = inr rows_before
    ∧ read_rows [] after = inr rows_after
    ∧ (length (line_fields line) < 2 →
       _read_manifest text = inr (rows_before ++ rows_after))
    ∧ (∀ p0 p1 extra, line_fields line = p0 :: p1 :: extra →
       _read_manifest text
       = inr (rows_before ++ {| id := p0; filename := p1 |} :: rows_after)).
Proof.
  intros Hlines Hhdr.
  destruct (read_rows_acc before []) as (rb & Hb & _).
  destruct (read_rows_acc after []) as (ra & Ha & _).
  exists rb, ra. split; [done|]. split; [done|].
  assert (∀ rows, read_rows [] [line] = inr rows →
                  _read_manifest text = inr (rb ++ rows ++ ra)) as Hgo.
  { intros rows Hl. rewrite read_manifest_unfold.
    unfold manifest_header. rewrite Hlines. cbn [readline fst snd].
    rewrite Hhdr, bool_decide_eq_false_2 by by intros ?.
    change (line :: after) with ([line] ++ after).
    apply read_rows_app; [done|]. by apply read_rows_app. }
  split.
  - intros Hshort. apply (Hgo []). cbn [read_rows].
    destruct (read_row_spec [] line) as [[_ ->]|(p0 & p1 & extra & Hf & _)];
      [done|]. rewrite Hf in Hshort. cbn in Hshort. lia.
  - intros p0 p1 extra Hf. apply (Hgo [_]). cbn [read_rows].
    destruct (read_row_spec [] line) as [[Hl _]|(q0 & q1 & extra' & Hf' & ->)].
    + rewrite Hf in Hl. cbn in Hl. lia.
    + rewrite Hf in Hf'. by simplify_eq.
Qed.

Lemma read_manifest_data_lines_witness :
  ∃ rows_before rows_after,
    read_rows [] ["a1	f1
"] = inr rows_before
    ∧ read_rows [] ["a3	f3	md5	12
"] = inr rows_after
    ∧ (length (line_fields "garbage
") < 2 →
       _read_manifest "id	filename
a1	f1
garbage
a3	f3	md5	12
" = inr (rows_before ++ rows_after))
    ∧ (∀ p0 p1 extra, line_fields "garbage
" = p0 :: p1 :: extra →
       _read_manifest "id	filename
a1	f1
garbage
a3	f3	md5	12
" = inr (rows_before ++ {| id := p0; filename := p1 |} :: rows_after)).
Proof.
  apply (read_manifest_data_lines _ "id	filename
" "garbage
" ["a1	f1
"] ["a3	f3	md5	12
"]); reflexivity.
Defined.

(** ** The progress line *)

Lemma tail_short_cases (tail : string) :
  tail_short tail
  = if existsb (λ k, Py.contains k (Py.lower tail)) keywords
    then " | last: " +:+ Py.slice_to 120 tail else "".
Proof.
  unfold tail_short. destruct (String.eqb_spec tail "") as [->|]; [|done].
  by vm_compute.
Qed.

(** C5, as amended: the progress line ends with an excerpt of the most
    recent drained line, stripped and cut to 120 characters, exactly when
    that line contains, case ignored, one of the keywords download, error,
    retry, complete, saved, skipping; otherwise it ends with no excerpt. *)
Theorem tail_short_keywords (line : string) :
  let tail := Py.strip line in
  (∀ lf last, outcome (reader_thread lf last [line]) = inr tail)
  ∧ (∀ fmt_pct done total elapsed initial_done, ∃ front,
       progress_msg fmt_pct done total elapsed initial_done tail
       = front +:+ tail_short tail)
  ∧ ((∃ k, k ∈ keywords ∧ contains_ci k line) →
     tail_short tail = " | last: " +:+ Py.slice_to 120 tail)
  ∧ (¬ (∃ k, k ∈ keywords ∧ contains_ci k line) → tail_short tail = "")
  ∧ String.length (Py.slice_to 120 tail) ≤ 120.
Proof.
  intros tail.
  assert (existsb (λ k, Py.contains k (Py.lower tail)) keywords = true
          ↔ ∃ k, k ∈ keywords ∧ contains_ci k line) as Hiff.
  { rewrite existsb_elem_of. split; intros (k & Hk & H); exists k.
    - destruct (keywords_plain k Hk) as [Hs Hne].
      unfold tail in H. rewrite contains_lower_strip in H by done.
      by rewrite <- contains_lower_ci.
    - destruct (keywords_plain k Hk) as [Hs Hne]. split; [done|].
      unfold tail. rewrite contains_lower_strip by done.
      by rewrite contains_lower_ci. }
  split; [done|]. split; [|split; [|split]].
  - intros fmt_pct done total elapsed initial_done. unfold progress_msg.
    eexists. by rewrite <- !str_app_assoc.
  - intros H. rewrite tail_short_cases. by rewrite (proj2 Hiff H).
  - intros H. rewrite tail_short_cases.
    destruct (existsb _ keywords); [|done]. destruct H. by apply Hiff.
  - apply slice_to_length.
Qed.

Lemma tail_short_keywords_witness :
  tail_short (Py.strip "  Downloading 3 files
")
  = " | last: " +:+ Py.slice_to 120 (Py.strip "  Downloading 3 files
").
Proof.
  apply (tail_short_keywords "  Downloading 3 files
").
  exists "download". split; [by apply list_elem_of_here|].
  by exists "  ", "Download", "ing 3 files
".
Defined.

(** C5, as stated, fails: a line that speaks of a transfer contains the
    first keyword of the claim, and gets no excerpt. *)
Lemma transfer_line_gets_no_excerpt :
  ¬ (∀ line, tail_short (Py.strip line) ≠ ""
             ↔ ∃ k, k ∈ spec_keywords ∧ contains_ci k line).
Proof.
  intros H.
  apply (proj2 (H "Transfer of file 1 begins
")); [|by vm_compute].
  exists "transfer". split; [by apply list_elem_of_here|].
  by exists "", "Transfer", " of file 1 begins
".
Qed.

(** ** The expected path *)

Lemma split_no_sep (s : string) :
  Py.contains "/" s = false → Py.split Py.slash s = [s].
Proof.
  induction s as [|c s IH]; [done|].
  cbn [Py.contains Py.startswith Py.split]. rewrite orb_false_iff.
  intros [Hc Hs]. rewrite (IH Hs).
  rewrite andb_true_r, Ascii.eqb_sym in Hc. unfold Py.slash. by rewrite Hc.
Qed.

Lemma join_single (p : Path) (s : string) :
  single_component s = true →
  p // s = {| root := root p; names := names p ++ [s] |}.
Proof.
  unfold single_component. rewrite andb_true_iff, negb_true_iff.
  intros [Hc Hs]. unfold PurePath.join, PurePath.parse_names.
  rewrite (split_no_sep s Hs). cbn [List.filter]. rewrite Hc.
  destruct s as [|c s]; [done|]. cbn [PurePath.is_absolute_str].
  destruct (Ascii.eqb_spec c "/") as [->|Hne]; [done|].
  destruct c as [[] [] [] [] [] [] [] []]; try done.
Qed.

Lemma count_rows_ext (fs fs' : FS) (out_dir : Path) (rows : list ManifestRow) :
  (∀ r, r ∈ rows → fs (_expected_path out_dir (id r) (filename r))
                   = fs' (_expected_path out_dir (id r) (filename r))) →
  ∀ n, count_rows fs out_dir rows n = count_rows fs' out_dir rows n.
Proof.
  induction rows as [|r rows IH]; intros H n; [done|].
  cbn [count_rows]. unfold path_exists.
  rewrite (H r) by apply list_elem_of_here.
  destruct (fs' _); apply IH; intros; apply H; by apply list_elem_of_further.
Qed.

Lemma verify_rows_ext (fs fs' : FS) (out_dir report : Path)
    (rows : list ManifestRow) :
  (∀ r, r ∈ rows → fs (_expected_path out_dir (id r) (filename r))
                   = fs' (_expected_path out_dir (id r) (filename r))) →
  ∀ ok missing empty,
    verify_rows fs out_dir report rows ok missing empty
    = verify_rows fs' out_dir report rows ok missing empty.
Proof.
  induction rows as [|r rows IH]; intros H ok missing empty; [done|].
  cbn [verify_rows]. unfold path_exists.
  rewrite (H r) by apply list_elem_of_here.
  assert (∀ ok missing empty,
    verify_rows fs out_dir report rows ok missing empty
    = verify_rows fs' out_dir report rows ok missing empty) as IH'.
  { apply IH. intros. apply H. by apply list_elem_of_further. }
  by rewrite !IH'.
Qed.

(** C6, as amended: when the identifier and the file name are each one path
    component (not empty, not [.], without a slash), the expected path is
    the output root, then one directory named by the identifier, then the
    file name; and the completion count and the verifier look at the
    filesystem through this one function only: two filesystem states that
    agree on the expected paths of the rows give the same count and the
    same verification. *)
Theorem expected_path_layout (out_dir : Path) :
  (∀ file_id filename,
     single_component file_id = true → single_component filename = true →
     _expected_path out_dir file_id filename = layout out_dir file_id filename)
  ∧ (∀ rows report (fs fs' : FS),
       (∀ r, r ∈ rows → fs (_expected_path out_dir (id r) (filename r))
                        = fs' (_expected_path out_dir (id r) (filename r))) →
       _count_completed fs rows out_dir = _count_completed fs' rows out_dir
       ∧ _verify_download fs rows out_dir report
         = _verify_download fs' rows out_dir report).
Proof.
  split.
  - intros file_id filename Hi Hf. unfold _expected_path, layout.
    rewrite (join_single out_dir file_id Hi), join_single by done.
    cbn [root names]. by rewrite <- app_assoc.
  - intros rows report fs fs' H. split.
    + by apply count_rows_ext.
    + unfold _verify_download. by rewrite (verify_rows_ext fs fs').
Qed.

Lemma expected_path_layout_witness :
  _expected_path (PurePath.of_str "/data/out") "id1" "f1.txt"
  = layout (PurePath.of_str "/data/out") "id1" "f1.txt".
Proof.
  apply (expected_path_layout (PurePath.of_str "/data/out")); reflexivity.
Defined.

(** C6, as stated, fails: an identifier that begins with a slash replaces
    the output root instead of naming a directory under it. *)
Lemma absolute_id_leaves_output_root :
  _expected_path (PurePath.of_str "out") "/srv" "f1.txt"
  ≠ layout (PurePath.of_str "out") "/srv" "f1.txt".
Proof. by vm_compute. Qed.

(** ** The orchestrator *)

Ltac eff_norm :=
  repeat first
    [ rewrite bind_emit
    | match goal with
      | |- context [mbind ?f (?t, inr ?x)] =>
          rewrite (bind_returns (t, inr x) f t x eq_refl)
      | H : ?m = (?t, inr ?x) |- context [mbind ?f ?m] =>
          rewrite (bind_returns m f t x H)
      end
    | progress cbn [trace outcome fst snd mret Eff_ret] ].

Lemma verify_download_spec (fs : FS) (rows : list ManifestRow)
    (out_dir report : Path) :
  ∃ recs,
    _verify_download fs rows out_dir report
    = ([Mkdir (PurePath.parent report) true true; OpenFile report "w";
        WriteRow report report_header] ++ (WriteRow report <$> recs),
       inr (status_count "OK" recs, status_count "MISSING" recs,
            status_count "EMPTY" recs))
    ∧ Forall2 (classified fs out_dir) rows recs.
Proof.
  destruct (verify_rows_spec fs out_dir report rows 0 0 0) as (recs & Heq & Hall).
  exists recs. split; [|done].
  unfold _verify_download. by rewrite !bind_emit, Heq.
Qed.

Lemma reader_thread_returns (lf : Path) (lines : list string) : ∀ last,
  ∃ t tail, reader_thread lf last lines = (t, inr tail)
            ∧ Forall (λ e, creates e = false) t.
Proof.
  induction lines as [|line lines IH]; intros last.
  - by exists [], last.
  - destruct (IH (Py.strip line)) as (t & tail & Heq & Hq).
    cbn [reader_thread]. rewrite bind_emit, Heq. cbn [trace outcome fst snd].
    do 2 eexists. split; [done|]. by constructor.
Qed.

Section Monitor.

Variable fmt_pct : nat → nat → string.
Variables (lf out_dir : Path) (rows : list ManifestRow).
Variables (total initial_done : nat) (progress_every : Z).

Lemma poll_once_returns (last : string) (s : Snapshot) :
∃ t tail,
  poll_once fmt_pct lf out_dir rows total initial_done last s = (t, inr tail)
  ∧ Forall (λ e, creates e = false) t.
Proof.
destruct (reader_thread_returns lf (drained s) last) as (t & tail & Heq & Hq).
unfold poll_once. eff_norm. do 2 eexists. split; [done|].
apply Forall_app. split; [done|]. by repeat constructor.
Qed.

Lemma poll_loop_returns (polls : list Snapshot) (final : Snapshot) : ∀ last,
∃ t tail,
  poll_loop fmt_pct lf out_dir rows total initial_done progress_every
    last polls final = (t, inr tail)
  ∧ Forall (λ e, creates e = false) t.
Proof.
induction polls as [|s polls IH]; intros last; cbn [poll_loop].
- apply poll_once_returns.
- destruct (poll_once_returns last s) as (t1 & tail1 & H1 & Hq1).
  destruct (IH tail1) as (t2 & tail2 & H2 & Hq2).
  eff_norm. rewrite H2. cbn [trace outcome fst snd].
  do 2 eexists. split; [done|].
  apply Forall_app. split; [done|]. by constructor.
Qed.

End Monitor.

(** Unfolds [main] up to the end of the monitoring, for a launched child. *)
Ltac main_launched fmt args w proc rows Hlaunch :=
  let text := fresh "text" in
  let Hm := fresh "Hm" in
  let Hr := fresh "Hr" in
  let Hne := fresh "Hne" in
  let Hc := fresh "Hc" in
  let tp := fresh "tp" in
  let tl := fresh "tl" in
  let tailp := fresh "tailp" in
  let taill := fresh "taill" in
  let Hp := fresh "Hp" in
  let Hl := fresh "Hl" in
  let Hqp := fresh "Hqp" in
  let Hql := fresh "Hql" in
  destruct Hlaunch as (text & Hm & Hr & Hne & Hc);
  unfold main; rewrite Hm, Hc, Hr;
  unfold lift; eff_norm;
  replace (length rows =? 0) with false by (by destruct rows);
  destruct (poll_loop_returns fmt
              (PurePath.of_str (Args.log_dir args)
               // ("gdc_download_" +:+ ts_log w +:+ ".log"))
              (PurePath.of_str (Args.out_dir args)) rows (length rows)
              (_count_completed (fs_launch w) rows
                 (PurePath.of_str (Args.out_dir args)))
              (Args.progress_every args) (running proc) (exited proc) "")
    as (tp & tailp & Hp & Hqp);
  destruct (reader_thread_returns
              (PurePath.of_str (Args.log_dir args)
               // ("gdc_download_" +:+ ts_log w +:+ ".log"))
              (late_lines proc) tailp)
    as (tl & taill & Hl & Hql).

Lemma main_child_failed fmt args w rows proc :
  launches w rows proc → returncode proc ≠ 0%Z →
  let out_dir := PurePath.of_str (Args.out_dir args) in
  let log_dir := PurePath.of_str (Args.log_dir args) in
  let log_file := log_dir // ("gdc_download_" +:+ ts_log w +:+ ".log") in
  ∃ cmd t,
    main fmt args w
    = ([Mkdir out_dir true true; Mkdir log_dir true true;
        OpenFile log_file "w"] ++ t, inr (returncode proc))
    ∧ Forall (λ e, creates e = false ∨ e = Popen cmd) t.
Proof.
  intros Hlaunch Hrc out_dir log_dir log_file.
  main_launched fmt args w proc rows Hlaunch.
  assert ((returncode proc =? 0)%Z = false) as Hz by by apply Z.eqb_neq.
  assert (∀ cmd, Forall (λ e, creates e = false ∨ e = Popen cmd) tp) as Hqp'.
  { intros cmd. eapply Forall_impl; [done|]. by left. }
  assert (∀ cmd, Forall (λ e, creates e = false ∨ e = Popen cmd) tl) as Hql'.
  { intros cmd. eapply Forall_impl; [done|]. by left. }
  destruct (token_given (Args.token_file args));
    eff_norm; rewrite Hz; cbn [negb]; eff_norm; cbn [app];
    do 2 eexists; (split; [reflexivity|]);
    repeat first
      [ apply Forall_nil_2
      | apply Forall_cons; split; [by (left + right)|]
      | apply Forall_app; split; [by (apply Hqp' + apply Hql')|] ].
Qed.

Lemma main_child_ok fmt args w rows proc ok missing empty :
  launches w rows proc → returncode proc = 0%Z →
  outcome (_verify_download (fs_verify w) rows
             (PurePath.of_str (Args.out_dir args))
             (PurePath.of_str (Args.log_dir args)
              // ("download_verify_" +:+ ts_report w +:+ ".csv")))
  = inr (ok, missing, empty) →
  outcome (main fmt args w)
  = inr (if Args.verify_after args
            && ((0 <? missing) || (0 <? empty))
            && Args.fail_on_verify args
         then 2%Z else 0%Z).
Proof.
  intros Hlaunch Hrc Hv.
  main_launched fmt args w proc rows Hlaunch.
  rewrite (eff_eta (_verify_download _ _ _ _)), Hv.
  rewrite Hrc.
  destruct (token_given (Args.token_file args)); eff_norm; cbn [Z.eqb negb];
    destruct (Args.verify_after args); eff_norm; cbn [andb]; try done;
    by destruct ((0 <? missing) || (0 <? empty)),
         (Args.fail_on_verify args).
Qed.

Lemma no_creation_trace (cmd : list string) (t : list Event) :
  Forall (λ e, creates e = false ∨ e = Popen cmd) t →
  Forall (λ e, is_report_write e = false) t ∧ opened t = [].
Proof.
  induction 1 as [|e t He _ [IH1 IH2]]; [done|].
  split.
  - constructor; [|done]. destruct He as [He| ->]; [|done]. by destruct e.
  - unfold opened in *. cbn [omap list_omap].
    destruct He as [He| ->]; [|done]. by destruct e.
Qed.

(** C2: when the child was launched and exits with a code other than
    zero, the orchestrator returns that code as it is, whether or not
    verification was requested; no report record is written, and the only
    file opened is the log file. *)
Theorem child_failure_propagates (fmt_pct : nat → nat → string)
    (args : Args.t) (w : World) (rows : list ManifestRow) (proc : ChildRun) :
  launches w rows proc → returncode proc ≠ 0%Z →
  let log_file := PurePath.of_str (Args.log_dir args)
                  // ("gdc_download_" +:+ ts_log w +:+ ".log") in
  outcome (main fmt_pct args w) = inr (returncode proc)
  ∧ Forall (λ e, is_report_write e = false) (trace (main fmt_pct args w))
  ∧ opened (trace (main fmt_pct args w)) = [log_file].
Proof.
  intros Hlaunch Hrc log_file.
  destruct (main_child_failed fmt_pct args w rows proc Hlaunch Hrc)
    as (cmd & t & -> & Ht).
  destruct (no_creation_trace cmd t Ht) as [Hw Ho].
  cbn [trace outcome fst snd]. split; [done|]. split.
  - apply Forall_app. split; [by repeat constructor|done].
  - unfold opened in *. by rewrite omap_app, Ho.
Qed.

Lemma sample_launches (code : Z) :
  launches (Sample.world code) Sample.rows (Sample.proc code).
Proof. exists Sample.text. by repeat split. Defined.

Lemma child_failure_propagates_witness :
  outcome (main Sample.fmt_pct Sample.args (Sample.world 3)) = inr 3%Z
  ∧ Forall (λ e, is_report_write e = false)
      (trace (main Sample.fmt_pct Sample.args (Sample.world 3)))
  ∧ opened (trace (main Sample.fmt_pct Sample.args (Sample.world 3)))
    = [PurePath.of_str "logs" // "gdc_download_20240101_000000.log"].
Proof.
  apply (child_failure_propagates Sample.fmt_pct Sample.args (Sample.world 3)
           Sample.rows (Sample.proc 3)); [apply sample_launches|done].
Defined.

(** C3, as amended: when the child exits 0 and verification was requested,
    the orchestrator returns 2 if fail-on-verify was requested and the
    verifier counts a missing or an empty file, and 0 if neither count is
    positive or fail-on-verify was not requested.  The code 2 is not kept
    apart from the child's codes: a run whose child fails returns 2
    exactly when the child itself exits with 2. *)
Theorem verification_failure_exit_code (fmt_pct : nat → nat → string)
    (args : Args.t) (w : World) (rows : list ManifestRow) (proc : ChildRun) :
  launches w rows proc → returncode proc = 0%Z →
  Args.verify_after args = true →
  let out_dir := PurePath.of_str (Args.out_dir args) in
  let report := PurePath.of_str (Args.log_dir args)
                // ("download_verify_" +:+ ts_report w +:+ ".csv") in
  ∃ ok missing empty,
    outcome (_verify_download (fs_verify w) rows out_dir report)
    = inr (ok, missing, empty)
    ∧ (Args.fail_on_verify args = true → 0 < missing ∨ 0 < empty →
       outcome (main fmt_pct args w) = inr 2%Z)
    ∧ (missing = 0 ∧ empty = 0 ∨ Args.fail_on_verify args = false →
       outcome (main fmt_pct args w) = inr 0%Z)
    ∧ (∀ args' w' rows' proc',
         launches w' rows' proc' → returncode proc' ≠ 0%Z →
         outcome (main fmt_pct args' w') = inr 2%Z ↔ returncode proc' = 2%Z).
Proof.
  intros Hlaunch Hrc Hv out_dir report.
  destruct (verify_download_spec (fs_verify w) rows out_dir report)
    as (recs & Heq & _).
  do 3 eexists. split; [by rewrite Heq|].
  assert (∀ ok missing empty,
    outcome (_verify_download (fs_verify w) rows out_dir report)
    = inr (ok, missing, empty) →
    outcome (main fmt_pct args w)
    = inr (if ((0 <? missing) || (0 <? empty)) && Args.fail_on_verify args
           then 2%Z else 0%Z)) as Hmain.
  { intros ok missing empty H.
    rewrite (main_child_ok fmt_pct args w rows proc ok missing empty)
      by done. by rewrite Hv. }
  rewrite (Hmain _ _ _ ltac:(by rewrite Heq)).
  split; [|split].
  - intros -> Hpos.
    assert ((0 <? status_count "MISSING" recs)
            || (0 <? status_count "EMPTY" recs) = true) as ->; [|done].
    apply orb_true_iff. rewrite !Nat.ltb_lt. done.
  - intros [[-> ->]| ->]; [done|]. by rewrite andb_false_r.
  - intros args' w' rows' proc' Hlaunch' Hrc'.
    destruct (main_child_failed fmt_pct args' w' rows' proc' Hlaunch' Hrc')
      as (cmd & t & -> & _).
    cbn [outcome snd]. split; [by intros [= ->]|by intros ->].
Qed.

Lemma verification_failure_exit_code_witness :
  ∃ ok missing empty,
    outcome (_verify_download Sample.fs_partial Sample.rows
               (PurePath.of_str "out")
               (PurePath.of_str "logs" // "download_verify_20240101_000100.csv"))
    = inr (ok, missing, empty)
    ∧ (true = true → 0 < missing ∨ 0 < empty →
       outcome (main Sample.fmt_pct Sample.args (Sample.world 0)) = inr 2%Z)
    ∧ (missing = 0 ∧ empty = 0 ∨ true = false →
       outcome (main Sample.fmt_pct Sample.args (Sample.world 0)) = inr 0%Z)
    ∧ (∀ args' w' rows' proc',
         launches w' rows' proc' → returncode proc' ≠ 0%Z →
         outcome (main Sample.fmt_pct args' w') = inr 2%Z
         ↔ returncode proc' = 2%Z).
Proof.
  apply (verification_failure_exit_code Sample.fmt_pct Sample.args
           (Sample.world 0) Sample.rows (Sample.proc 0));
    [apply sample_launches|done|done].
Defined.

(** C3, as stated, fails: the code returned for a failed verification is
    not distinguishable from a child failure, since a child that exits
    with 2 gives the same result. *)
Lemma exit_code_2_is_ambiguous :
  ¬ (∀ fmt_pct args w rows proc args' w' rows' proc',
       launches w rows proc → returncode proc = 0%Z →
       Args.verify_after args = true → Args.fail_on_verify args = true →
       (∃ ok missing empty,
          outcome (_verify_download (fs_verify w) rows
                     (PurePath.of_str (Args.out_dir args))
                     (PurePath.of_str (Args.log_dir args)
                      // ("download_verify_" +:+ ts_report w +:+ ".csv")))
          = inr (ok, missing, empty) ∧ (0 < missing ∨ 0 < empty)) →
       launches w' rows' proc' → returncode proc' ≠ 0%Z →
       outcome (main fmt_pct args w) ≠ outcome (main fmt_pct args' w')).
Proof.
  intros H.
  apply (H Sample.fmt_pct Sample.args (Sample.world 0) Sample.rows
           (Sample.proc 0) Sample.args (Sample.world 2) Sample.rows
           (Sample.proc 2));
    [ apply sample_launches | reflexivity | reflexivity | reflexivity
    | exists 1, 1, 1; split; [by vm_compute|lia]
    | apply sample_launches | discriminate | by vm_compute ].
Qed.

(** C8: when the manifest parses to no row, the orchestrator raises the
    zero-rows error; up to then it has created the output and the log
    directory, each with [exist_ok], and nothing else: no file is opened
    and no process is launched. *)
Theorem zero_rows_fail_before_spawn (fmt_pct : nat → nat → string)
    (args : Args.t) (w : World) (text : string) :
  manifest_text w = Some text → _read_manifest text = inr [] →
  main fmt_pct args w
  = ([Mkdir (PurePath.of_str (Args.out_dir args)) true true;
      Mkdir (PurePath.of_str (Args.log_dir args)) true true],
     inl ZeroRows)
  ∧ Forall (λ e, is_popen e = false) (trace (main fmt_pct args w)).
Proof.
  intros Hm Hr.
  assert (main fmt_pct args w
          = ([Mkdir (PurePath.of_str (Args.out_dir args)) true true;
              Mkdir (PurePath.of_str (Args.log_dir args)) true true],
             inl ZeroRows)) as ->.
  { unfold main. rewrite Hm, Hr. unfold lift. by eff_norm. }
  split; [done|]. by repeat constructor.
Qed.

Lemma zero_rows_fail_before_spawn_witness :
  main Sample.fmt_pct Sample.args Sample.world_no_rows
  = ([Mkdir (PurePath.of_str "out") true true;
      Mkdir (PurePath.of_str "logs") true true],
     inl ZeroRows)
  ∧ Forall (λ e, is_popen e = false)
      (trace (main Sample.fmt_pct Sample.args Sample.world_no_rows)).
Proof.
  apply (zero_rows_fail_before_spawn Sample.fmt_pct Sample.args
           Sample.world_no_rows "id	filename
"); reflexivity.
Defined.

Lemma count_completed_monotone_witness :
  _count_completed Sample.fs_empty Sample.rows (PurePath.of_str "out")
  ≤ _count_completed Sample.fs_partial Sample.rows (PurePath.of_str "out").
Proof.
  apply (proj1 (count_completed_monotone Sample.rows (PurePath.of_str "out"))).
  intros p H. discriminate H.
Defined.

Lemma read_manifest_header_check_witness :
  _read_manifest "filename	id
a1	f1
"
  = inl (BadHeader (take 5 (manifest_header "filename	id
a1	f1
"))).
Proof.
  apply (proj1 (proj2 (read_manifest_header_check "filename	id
a1	f1
"))); [by vm_compute|reflexivity].
Defined.


(** * Further properties *)

(** ** Manifest parsing *)

Lemma read_rows_omap (lines : list string) :
  read_rows [] lines = inr (omap row_of_line lines).
Proof.
  induction lines as [|line lines IH]; [done|].
  change (line :: lines) with ([line] ++ lines).
  rewrite (read_rows_app [line] lines (omap row_of_line [line])
             (omap row_of_line lines)); [by rewrite omap_app|..|done].
  cbn [read_rows omap list_omap]. unfold row_of_line.
  destruct (read_row_spec [] line) as [[Hl ->]|(p0 & p1 & extra & Hf & ->)].
  - by destruct (line_fields line) as [|? [|? ?]]; cbn in Hl; try lia.
  - by rewrite Hf.
Qed.

(** X1: with a valid header, the rows are the data lines that have two
    fields or more, each giving one row of its first two fields, in the
    order of the file; nothing is merged or dropped beyond that. *)
Theorem read_manifest_rows_in_order (text : string) :
  take 2 (manifest_header text) = ["id"; "filename"] →
  _read_manifest text = inr (omap row_of_line (data_lines text))
  ∧ (∀ rows, _read_manifest text = inr rows →
       length rows = length (filter (λ l, 2 ≤ length (line_fields l))
                               (data_lines text))).
Proof.
  intros Hh.
  assert (_read_manifest text = inr (omap row_of_line (data_lines text))) as Heq.
  { rewrite read_manifest_unfold, Hh.
    rewrite bool_decide_eq_false_2 by by intros ?.
    apply read_rows_omap. }
  split; [done|]. intros rows. rewrite Heq. intros [= <-].
  generalize (data_lines text). intros lines.
  induction lines as [|l lines IH]; [done|].
  cbn [omap list_omap]. rewrite filter_cons. unfold row_of_line at 1.
  destruct (line_fields l) as [|p0 [|p1 extra]]; cbn [length];
    destruct (decide _) as [Hd|Hd]; cbn [length]; try lia.
  all: by rewrite ?IH.
Qed.

Lemma read_manifest_rows_in_order_witness :
  _read_manifest "id	filename
a	f
a	f
x
b	g	md5
"
  = inr (omap row_of_line (data_lines "id	filename
a	f
a	f
x
b	g	md5
")).
Proof.
  apply (read_manifest_rows_in_order "id	filename
a	f
a	f
x
b	g	md5
"). reflexivity.
Defined.

(** ** Manifest parsing, continued *)

Lemma split_fields (sep : ascii) (s : string) :
  ∀ f, f ∈ Py.split sep s →
       (sep ∉ chars f) ∧ (∀ c, c ∈ chars f → c ∈ chars s).
Proof.
  induction s as [|a s IH]; intros f Hf.
  - apply list_elem_of_singleton in Hf as ->. split; [|done].
    unfold chars. cbn. apply not_elem_of_nil.
  - cbn [Py.split] in Hf. unfold chars in *. cbn [list_ascii_of_string].
    destruct (Ascii.eqb_spec a sep) as [->|Hne].
    + apply elem_of_cons in Hf as [->|Hf].
      * split; [cbn; apply not_elem_of_nil|]. cbn. by intros c ?%elem_of_nil.
      * destruct (IH f Hf) as [H1 H2]. split; [done|].
        intros c Hc. apply list_elem_of_further. by apply H2.
    + destruct (Py.split sep s) as [|g gs] eqn:Hs.
      * apply list_elem_of_singleton in Hf as ->. cbn.
        split; [|by intros c ->%list_elem_of_singleton; left].
        by intros ->%list_elem_of_singleton.
      * apply elem_of_cons in Hf as [->|Hf].
        -- destruct (IH g ltac:(left)) as [H1 H2].
           cbn [list_ascii_of_string]. split.
           ++ intros [?|?]%elem_of_cons; [by subst|done].
           ++ intros c [->|Hc]%elem_of_cons; [left|right; by apply H2].
        -- destruct (IH f ltac:(by right)) as [H1 H2]. split; [done|].
           intros c Hc. right. by apply H2.
Qed.

Lemma readlines_rstrip_no_nl (text : string) :
  ∀ l, l ∈ Py.readlines text → Py.nl ∉ chars (Py.rstrip Py.nl l).
Proof.
  induction text as [|c rest IH]; intros l Hl; [by apply elem_of_nil in Hl|].
  cbn [Py.readlines] in Hl.
  destruct (Ascii.eqb_spec c Py.nl) as [Heq|Hne].
  - apply elem_of_cons in Hl as [->|Hl]; [|by apply IH].
    cbn [Py.rstrip]. rewrite (proj2 (Ascii.eqb_eq c Py.nl) Heq).
    apply not_elem_of_nil.
  - destruct (Py.readlines rest) as [|l0 ls] eqn:Hr.
    + apply list_elem_of_singleton in Hl as ->. cbn [Py.rstrip].
      destruct (Ascii.eqb_spec c Py.nl); [done|].
      unfold chars. cbn. intros ?%list_elem_of_singleton. congruence.
    + apply elem_of_cons in Hl as [->|Hl]; [|apply IH; by right].
      specialize (IH l0 ltac:(left)). cbn [Py.rstrip].
      destruct (Py.rstrip Py.nl l0) as [|b r] eqn:Hl0.
      * destruct (Ascii.eqb_spec c Py.nl); [done|].
        unfold chars. cbn. intros ?%list_elem_of_singleton. congruence.
      * unfold chars in *. cbn [list_ascii_of_string] in *.
        intros [?|?]%elem_of_cons; [by subst|done].
Qed.

Lemma row_of_line_fields (line : string) (r : ManifestRow) :
  row_of_line line = Some r →
  id r ∈ line_fields line ∧ filename r ∈ line_fields line.
Proof.
  unfold row_of_line. destruct (line_fields line) as [|p0 [|p1 extra]]; try done.
  intros [= <-]. cbn. split; [left|right; left].
Qed.

(** X2: no parsed row carries a tab or a newline in its identifier or its
    file name: the fields are what lies between the tabs of one line,
    without its line end. *)
Theorem read_manifest_fields_clean (text : string) (rows : list ManifestRow) :
  _read_manifest text = inr rows →
  ∀ r, r ∈ rows →
    (Py.tab ∉ chars (id r)) ∧ (Py.nl ∉ chars (id r))
    ∧ (Py.tab ∉ chars (filename r)) ∧ (Py.nl ∉ chars (filename r)).
Proof.
  intros Hr r Hin.
  rewrite read_manifest_unfold in Hr. case_bool_decide; [done|].
  rewrite read_rows_omap in Hr. injection Hr as <-.
  apply list_elem_of_omap in Hin as (line & Hline & Hrow).
  assert (line ∈ Py.readlines text) as Hl.
  { unfold readline in Hline. destruct (Py.readlines text); [done|].
    by right. }
  pose proof (readlines_rstrip_no_nl text line Hl) as Hnl.
  destruct (row_of_line_fields line r Hrow) as [Hi Hf].
  unfold line_fields in *.
  destruct (split_fields Py.tab _ _ Hi) as [Hi1 Hi2].
  destruct (split_fields Py.tab _ _ Hf) as [Hf1 Hf2].
  split; [done|]. split; [by intros ?%Hi2|]. split; [done|]. by intros ?%Hf2.
Qed.

Lemma rstrip_cons_ne (c a : ascii) (s : string) :
  a ≠ c → Py.rstrip c (String a s) = String a (Py.rstrip c s).
Proof.
  intros Hne. cbn [Py.rstrip]. destruct (Py.rstrip c s); [|done].
  by destruct (Ascii.eqb_spec a c).
Qed.

Lemma rstrip_idemp (c : ascii) (s : string) :
  Py.rstrip c (Py.rstrip c s) = Py.rstrip c s.
Proof.
  induction s as [|a s IH]; [done|]. cbn [Py.rstrip].
  destruct (Py.rstrip c s) as [|b r] eqn:Hr.
  - destruct (Ascii.eqb_spec a c) as [->|Hne]; [done|].
    cbn. by destruct (Ascii.eqb_spec a c).
  - cbn [Py.rstrip] in *. by rewrite IH.
Qed.

Lemma line_fields_rstrip (l : string) :
  line_fields (Py.rstrip Py.nl l) = line_fields l.
Proof. unfold line_fields. by rewrite rstrip_idemp. Qed.

Lemma row_of_line_rstrip (l : string) :
  row_of_line (Py.rstrip Py.nl l) = row_of_line l.
Proof. unfold row_of_line. by rewrite line_fields_rstrip. Qed.

Lemma stripped_lines_cons (c : ascii) (text : string) :
  Py.rstrip Py.nl <$> Py.readlines (String c text)
  = if Ascii.eqb c Py.nl
    then "" :: (Py.rstrip Py.nl <$> Py.readlines text)
    else match Py.rstrip Py.nl <$> Py.readlines text with
         | [] => [String c ""]
         | s :: ss => String c s :: ss
         end.
Proof.
  cbn [Py.readlines]. destruct (Ascii.eqb_spec c Py.nl) as [Heq|Hne].
  - cbn [fmap list_fmap Py.rstrip]. by rewrite (proj2 (Ascii.eqb_eq _ _) Heq).
  - destruct (Py.readlines text) as [|l ls]; cbn [fmap list_fmap].
    + by rewrite rstrip_cons_ne.
    + by rewrite rstrip_cons_ne.
Qed.

Lemma stripped_lines_snoc_nl (text : string) :
  ∃ E, (E = [] ∨ E = [""])
       ∧ Py.rstrip Py.nl <$> Py.readlines (text +:+ String Py.nl "")
         = (Py.rstrip Py.nl <$> Py.readlines text) ++ E
       ∧ (Py.rstrip Py.nl <$> Py.readlines text = [] → E = [""]).
Proof.
  induction text as [|c text (E & HE & Heq & Hnil)].
  - exists [""]. split; [by right|]. by split.
  - change (String c text +:+ String Py.nl "")
      with (String c (text +:+ String Py.nl "")).
    rewrite !stripped_lines_cons, Heq.
    destruct (Ascii.eqb c Py.nl).
    + exists E. split; [done|]. split; [done|]. done.
    + destruct (Py.rstrip Py.nl <$> Py.readlines text) as [|s ss].
      * rewrite (Hnil eq_refl). exists []. split; [by left|]. by split.
      * exists E. split; [done|]. by split.
Qed.

Lemma read_manifest_stripped (text : string) :
  _read_manifest text
  = let S := Py.rstrip Py.nl <$> Py.readlines text in
    if bool_decide (take 2 (line_fields (hd "" S)) ≠ ["id"; "filename"])
    then inl (BadHeader (take 5 (line_fields (hd "" S))))
    else inr (omap row_of_line (tail S)).
Proof.
  rewrite read_manifest_unfold. unfold manifest_header. cbn zeta.
  assert (line_fields (hd "" (Py.rstrip Py.nl <$> Py.readlines text))
          = line_fields (fst (readline (Py.readlines text)))) as ->.
  { destruct (Py.readlines text); [done|]. cbn. apply line_fields_rstrip. }
  case_bool_decide; [done|]. rewrite read_rows_omap. f_equal.
  destruct (Py.readlines text) as [|l ls]; [done|]. cbn [readline snd tail fmap list_fmap].
  induction ls as [|x ls IH]; [done|]. cbn [omap list_omap fmap list_fmap].
  by rewrite row_of_line_rstrip, IH.
Qed.

(** X3: a newline added at the end of the manifest text never changes the
    result: it either ends the last line or adds a blank line, and a blank
    line gives no row. *)
Theorem read_manifest_trailing_newline (text : string) :
  _read_manifest (text +:+ String Py.nl "") = _read_manifest text.
Proof.
  rewrite !read_manifest_stripped. cbn zeta.
  destruct (stripped_lines_snoc_nl text) as (E & [->| ->] & -> & Hnil).
  - by rewrite app_nil_r.
  - destruct (Py.rstrip Py.nl <$> Py.readlines text) as [|s ss]; [done|].
    cbn [app hd tail]. case_bool_decide; [done|]. f_equal.
    rewrite omap_app. cbn. by rewrite app_nil_r.
Qed.


(** ** Verifier and completion oracle, continued *)

Lemma str_int_decode (n : Z) : parse_int (Py.str_int n) = Some n.
Proof.
  unfold parse_int, Py.str_int.
  rewrite NilZero.isi.
  - cbn. by rewrite DecimalZ.of_to.
  - destruct n as [|p|p]; cbn; try done.
    intros [= H]. by apply DecimalPos.Unsigned.to_uint_nonnil in H.
  - destruct n as [|p|p]; cbn; try done.
    intros [= H]. by apply DecimalPos.Unsigned.to_uint_nonnil in H.
Qed.

Lemma verify_rows_closed (fs : FS) (out_dir report : Path)
    (rows : list ManifestRow) : ∀ ok missing empty,
  let recs := report_record fs out_dir <$> rows in
  verify_rows fs out_dir report rows ok missing empty
  = (WriteRow report <$> recs,
     inr ((ok + status_count "OK" recs)%nat,
          (missing + status_count "MISSING" recs)%nat,
          (empty + status_count "EMPTY" recs)%nat)).
Proof.
  induction rows as [|r rows IH]; intros ok missing empty recs.
  - subst recs. cbn [verify_rows fmap list_fmap]. unfold status_count.
    rewrite !filter_nil. cbn [length]. by rewrite !Nat.add_0_r.
  - subst recs. cbn zeta in IH. cbn [verify_rows fmap list_fmap].
    unfold path_exists, report_record at 1 3 5 7.
    destruct (fs (_expected_path out_dir (id r) (filename r))) as [n|] eqn:Hp;
      cbn [negb from_option];
      [destruct (N.eqb_spec (st_size n) 0) as [Hz|Hnz]|];
      rewrite bind_emit, IH; cbn [trace outcome fst snd].
    + rewrite (status_count_hit "EMPTY"), (status_count_miss "OK"),
        (status_count_miss "MISSING") by done.
      by rewrite ?Nat.add_succ_r.
    + rewrite (status_count_hit "OK"), (status_count_miss "MISSING"),
        (status_count_miss "EMPTY") by done.
      by rewrite ?Nat.add_succ_r.
    + rewrite (status_count_hit "MISSING"), (status_count_miss "OK"),
        (status_count_miss "EMPTY") by done.
      by rewrite ?Nat.add_succ_r.
Qed.

Lemma verify_download_closed (fs : FS) (rows : list ManifestRow)
    (out_dir report : Path) :
  let recs := report_record fs out_dir <$> rows in
  _verify_download fs rows out_dir report
  = ([Mkdir (PurePath.parent report) true true; OpenFile report "w";
      WriteRow report report_header] ++ (WriteRow report <$> recs),
     inr (status_count "OK" recs, status_count "MISSING" recs,
          status_count "EMPTY" recs)).
Proof.
  intros recs. unfold _verify_download.
  by rewrite !bind_emit, verify_rows_closed.
Qed.

(** X4: the report is the column header, then one record per row in
    manifest order, each the record of its row alone; the expected_path
    column is the text of the expected path, and the size_bytes column is
    empty for a missing path and otherwise reads back as the size. *)
Theorem verify_report_records (fs : FS) (rows : list ManifestRow)
    (out_dir report : Path) :
  trace (_verify_download fs rows out_dir report)
  = [Mkdir (PurePath.parent report) true true; OpenFile report "w";
     WriteRow report report_header]
    ++ (WriteRow report <$> (report_record fs out_dir <$> rows))
  ∧ ∀ r, let p := _expected_path out_dir (id r) (filename r) in
         let rec := report_record fs out_dir r in
         rec !! 2%nat = Some (PurePath.to_str p)
         ∧ match fs p with
           | None => rec !! 4%nat = Some ""
           | Some n => parse_int <$> rec !! 4%nat
                       = Some (Some (Z.of_N (st_size n)))
           end.
Proof.
  split; [by rewrite verify_download_closed|].
  intros r p rec. subst rec. unfold report_record. fold p.
  destruct (fs p) as [n|]; [|done]. cbn. unfold str_size.
  by rewrite str_int_decode.
Qed.

Lemma status_count_zero (s : string) (recs : list (list string)) :
  status_count s recs = 0 ↔ ∀ rec, rec ∈ recs → rec !! 3%nat ≠ Some s.
Proof.
  induction recs as [|rec recs IH].
  - split; [by intros _ ? ?%elem_of_nil|done].
  - destruct (decide (rec !! 3%nat = Some s)) as [Hs|Hs].
    + rewrite status_count_hit by done. split; [done|].
      intros H. destruct (H rec); [left|done].
    + rewrite status_count_miss, IH by done. split.
      * intros H x [->|?]%elem_of_cons; [done|by apply H].
      * intros H x ?. apply H. by right.
Qed.

(** X5: the verifier counts nothing missing and nothing empty exactly when
    every row's expected path exists with a nonzero size, and then the ok
    count is the number of rows. *)
Theorem verify_clean_iff_all_present (fs : FS) (rows : list ManifestRow)
    (out_dir report : Path) (ok missing empty : nat) :
  outcome (_verify_download fs rows out_dir report) = inr (ok, missing, empty) →
  (missing = 0 ∧ empty = 0
   ↔ ∀ r, r ∈ rows →
         ∃ n, fs (_expected_path out_dir (id r) (filename r)) = Some n
              ∧ st_size n ≠ 0%N)
  ∧ (missing = 0 ∧ empty = 0 → ok = length rows).
Proof.
  rewrite verify_download_closed. cbn [outcome snd]. intros [= <- <- <-].
  assert (∀ r, (report_record fs out_dir r !! 3%nat ≠ Some "MISSING"
                ∧ report_record fs out_dir r !! 3%nat ≠ Some "EMPTY")
               ↔ ∃ n, fs (_expected_path out_dir (id r) (filename r)) = Some n
                      ∧ st_size n ≠ 0%N) as Hrec.
  { intros r. unfold report_record.
    destruct (fs (_expected_path out_dir (id r) (filename r))) as [n|].
    - destruct (N.eqb_spec (st_size n) 0) as [Hz|Hnz]; cbn.
      + split; [by intros [_ ?]|]. by intros (n' & [= <-] & ?).
      + split; [by eauto|]. done.
    - cbn. split; [by intros [? _]|]. by intros (? & ? & _). }
  assert ((status_count "MISSING" (report_record fs out_dir <$> rows) = 0
           ∧ status_count "EMPTY" (report_record fs out_dir <$> rows) = 0)
          ↔ ∀ r, r ∈ rows →
              ∃ n, fs (_expected_path out_dir (id r) (filename r)) = Some n
                   ∧ st_size n ≠ 0%N) as Hiff.
  { rewrite !status_count_zero. split.
    - intros [Hm He] r Hr. apply Hrec.
      split; [apply Hm|apply He]; by apply list_elem_of_fmap_2.
    - intros H. split; intros rec (r & -> & Hr)%list_elem_of_fmap;
        by apply Hrec, H. }
  split; [done|]. intros Hz.
  destruct (verify_rows_spec fs out_dir report rows 0 0 0) as (recs & Heq & Hall).
  rewrite verify_rows_closed in Heq. cbn zeta in Heq.
  injection Heq as Hrecs H1 H2 H3.
  destruct (count_rows_spec fs out_dir rows recs Hall) as [_ Hl].
  destruct Hz as [Hm0 He0]. rewrite Hm0 in H2. rewrite He0 in H3. lia.
Qed.

Lemma count_rows_closed (fs : FS) (out_dir : Path) (rows : list ManifestRow) :
  ∀ d, count_rows fs out_dir rows d
       = d + length (filter (λ r, path_exists fs
                 (_expected_path out_dir (id r) (filename r)) = true) rows).
Proof.
  induction rows as [|r rows IH]; intros d; cbn [count_rows].
  - rewrite filter_nil. cbn. lia.
  - rewrite filter_cons.
    destruct (path_exists fs _) eqn:Hp; rewrite IH;
      destruct (decide _); try done; cbn [length]; lia.
Qed.

(** X6: the completion count never exceeds the number of rows; it equals
    it exactly when every expected path exists, and it is zero exactly when
    none does. *)
Theorem count_completed_bounds (fs : FS) (rows : list ManifestRow)
    (out_dir : Path) :
  _count_completed fs rows out_dir ≤ length rows
  ∧ (_count_completed fs rows out_dir = length rows
     ↔ ∀ r, r ∈ rows →
         path_exists fs (_expected_path out_dir (id r) (filename r)) = true)
  ∧ (_count_completed fs rows out_dir = 0
     ↔ ∀ r, r ∈ rows →
         path_exists fs (_expected_path out_dir (id r) (filename r)) = false).
Proof.
  unfold _count_completed. rewrite count_rows_closed. cbn [Nat.add].
  induction rows as [|r rows (IHle & IHall & IHnone)].
  - rewrite filter_nil. cbn [length]. split; [lia|].
    split; (split; [by intros _ ? ?%elem_of_nil|done]).
  - rewrite filter_cons.
    destruct (decide _) as [Hp|Hp]; cbn [length].
    + split; [lia|]. split.
      * split.
        -- intros H r' [->|Hr']%elem_of_cons; [done|].
           apply IHall; [lia|done].
        -- intros H. f_equal. apply IHall. intros r' Hr'. apply H. by right.
      * split; [lia|]. intros H. specialize (H r ltac:(left)). congruence.
    + apply not_true_is_false in Hp. split; [lia|]. split.
      * split; [lia|]. intros H. specialize (H r ltac:(left)). congruence.
      * split.
        -- intros H r' [->|Hr']%elem_of_cons; [done|]. by apply IHnone.
        -- intros H. apply IHnone. intros r' Hr'. apply H. by right.
Qed.

(** X7: both the completion count and the three verifier counts of two
    manifests put end to end are the sums of theirs: a row is counted each
    time it occurs, nothing is counted per distinct path. *)
Theorem counts_split_over_concatenation (fs : FS) (rows1 rows2 : list ManifestRow)
    (out_dir report : Path) :
  _count_completed fs (rows1 ++ rows2) out_dir
  = _count_completed fs rows1 out_dir + _count_completed fs rows2 out_dir
  ∧ ∀ ok1 missing1 empty1 ok2 missing2 empty2,
      outcome (_verify_download fs rows1 out_dir report)
      = inr (ok1, missing1, empty1) →
      outcome (_verify_download fs rows2 out_dir report)
      = inr (ok2, missing2, empty2) →
      outcome (_verify_download fs (rows1 ++ rows2) out_dir report)
      = inr (ok1 + ok2, missing1 + missing2, empty1 + empty2).
Proof.
  split.
  - unfold _count_completed. rewrite !count_rows_closed, filter_app, length_app.
    lia.
  - intros ok1 missing1 empty1 ok2 missing2 empty2.
    rewrite !verify_download_closed. cbn [outcome snd].
    intros [= <- <- <-] [= <- <- <-]. f_equal.
    unfold status_count. by rewrite !fmap_app, !filter_app, !length_app.
Qed.


(** ** Reader and foreground loop *)

Lemma last_line_after_cons (prev line : string) (rest : list string) :
  last_line_after prev (line :: rest) = last_line_after (Py.strip line) rest.
Proof.
  unfold last_line_after. destruct rest as [|l rest]; [done|].
  rewrite last_cons_cons. destruct (last (l :: rest)) eqn:H; [done|].
  by apply last_None in H.
Qed.

Lemma last_line_after_app (prev : string) (l1 l2 : list string) :
  last_line_after prev (l1 ++ l2) = last_line_after (last_line_after prev l1) l2.
Proof.
  revert prev. induction l1 as [|x l1 IH]; intros prev; [done|].
  cbn [app]. by rewrite !last_line_after_cons, IH.
Qed.

(** X8: the reader writes every line to the log as it is, in order, and
    the last line it leaves is the stripped text of the most recent line,
    or the previous one when there was no line: last write wins. *)
Theorem reader_thread_log_and_last_line (lf : Path) (prev : string)
    (lines : list string) :
  reader_thread lf prev lines
  = (WriteText lf <$> lines, inr (last_line_after prev lines)).
Proof.
  revert prev. induction lines as [|line lines IH]; intros prev; [done|].
  cbn [reader_thread]. rewrite bind_emit, IH. cbn [trace outcome fst snd].
  by rewrite last_line_after_cons.
Qed.

Lemma written_writes (lf : Path) (lines : list string) :
  written (WriteText lf <$> lines) = lines
  ∧ printed (WriteText lf <$> lines) = []
  ∧ slept (WriteText lf <$> lines) = [].
Proof.
  unfold written, printed, slept.
  induction lines as [|l lines (IH1 & IH2 & IH3)]; [done|].
  cbn [fmap list_fmap omap list_omap]. by rewrite IH1, IH2, IH3.
Qed.

Section Cadence.

Variable fmt_pct : nat → nat → string.
Variables (lf out_dir : Path) (rows : list ManifestRow).
Variables (total initial_done : nat) (progress_every : Z).

Lemma poll_once_closed (prev : string) (s : Snapshot) :
  poll_once fmt_pct lf out_dir rows total initial_done prev s
  = ((WriteText lf <$> drained s)
     ++ [Stdout (progress_msg fmt_pct
                   (_count_completed (snap_fs s) rows out_dir) total
                   (_fmt_elapsed (elapsed s)) initial_done
                   (last_line_after prev (drained s)))],
     inr (last_line_after prev (drained s))).
Proof.
  unfold poll_once. rewrite reader_thread_log_and_last_line.
  rewrite (bind_returns _ _ _ _ eq_refl). by rewrite bind_emit.
Qed.

(** X9: the foreground loop prints one progress line per poll, the last
    one after the child exited, and sleeps once per poll at which the child
    still runs, each time max(1, progress_every) seconds, never less than
    one; the line of a poll shows the completion count of that poll's
    filesystem and the most recent output line consumed up to it; every
    output line consumed meanwhile is in the log, in order. *)
Theorem poll_loop_cadence (polls : list Snapshot) (final : Snapshot)
    (prev : string) :
  let t := trace (poll_loop fmt_pct lf out_dir rows total initial_done
                    progress_every prev polls final) in
  let lines := concat (drained <$> polls) ++ drained final in
  outcome (poll_loop fmt_pct lf out_dir rows total initial_done
             progress_every prev polls final)
  = inr (last_line_after prev lines)
  ∧ written t = lines
  ∧ slept t = replicate (length polls) (Z.max 1 progress_every)
  ∧ (1 ≤ Z.max 1 progress_every)%Z
  ∧ length (printed t) = S (length polls)
  ∧ ∀ i s, (polls ++ [final]) !! i = Some s →
      printed t !! i
      = Some (progress_msg fmt_pct
                (_count_completed (snap_fs s) rows out_dir) total
                (_fmt_elapsed (elapsed s)) initial_done
                (last_line_after prev
                   (concat (drained <$> take (S i) (polls ++ [final]))))).
Proof.
  revert prev. induction polls as [|p polls IH]; intros prev t lines;
    subst t lines; cbn [poll_loop].
  - rewrite poll_once_closed. cbn [trace outcome fst snd concat fmap list_fmap app length].
    destruct (written_writes lf (drained final)) as (Hw & Hp & Hs).
    unfold written, printed, slept in *. rewrite !omap_app, Hw, Hp, Hs.
    cbn [omap list_omap app replicate length]. rewrite app_nil_r.
    split; [done|]. split; [done|]. split; [done|]. split; [lia|].
    split; [done|]. intros [|i] s Hi; [|done]. injection Hi as <-.
    cbn. by rewrite app_nil_r.
  - rewrite poll_once_closed. rewrite (bind_returns _ _ _ _ eq_refl).
    rewrite bind_emit. cbn [trace outcome fst snd].
    specialize (IH (last_line_after prev (drained p))). cbn zeta in IH.
    destruct IH as (IHo & IHw & IHs & _ & IHn & IHi).
    destruct (written_writes lf (drained p)) as (Hw & Hp & Hs).
    unfold written, printed, slept in *.
    rewrite <- !app_assoc, !omap_app, Hw, Hp, Hs. cbn [omap list_omap app].
    rewrite IHo, IHw, IHs.
    cbn [fmap list_fmap concat length replicate].
    rewrite <- !app_assoc.
    split; [by rewrite !last_line_after_app|].
    split; [done|]. split; [done|]. split; [lia|].
    split; [by rewrite IHn|]. intros [|i] s Hi.
    + injection Hi as <-. cbn. by rewrite app_nil_r.
    + specialize (IHi i s Hi). etrans; [exact IHi|].
      cbn [take fmap list_fmap concat]. by rewrite last_line_after_app.
Qed.

End Cadence.


(** ** The orchestrator, continued *)




Lemma bind_mret {A B} (x : A) (f : A → Eff B) : (mret x ≫= f) = f x.
Proof. unfold mret, Eff_ret, mbind, Eff_bind. by destruct (f x). Qed.

Ltac eff_norm' := repeat first [rewrite bind_mret | progress eff_norm].



(** X11: when the manifest cannot be opened, or its header is rejected,
    the orchestrator raises that error after creating the two directories
    and before anything else: no log file, no process. *)
Theorem manifest_error_aborts (fmt_pct : nat → nat → string)
    (args : Args.t) (w : World) :
  let dirs := [Mkdir (PurePath.of_str (Args.out_dir args)) true true;
               Mkdir (PurePath.of_str (Args.log_dir args)) true true] in
  (manifest_text w = None →
   main fmt_pct args w = (dirs, inl ManifestUnreadable))
  ∧ (∀ text e, manifest_text w = Some text → _read_manifest text = inl e →
       main fmt_pct args w = (dirs, inl e)).
Proof.
  intros dirs. split.
  - intros Hm. unfold main. rewrite Hm. unfold raise. by rewrite !bind_emit.
  - intros text e Hm Hr. unfold main. rewrite Hm, Hr. unfold lift.
    by rewrite !bind_emit.
Qed.

(** X12: when the child cannot be launched the orchestrator raises instead
    of returning an exit code; by then the log file is open and holds the
    header block, nothing was printed and no process exists. *)
Theorem launch_failure_raises (fmt_pct : nat → nat → string)
    (args : Args.t) (w : World) (text : string) (rows : list ManifestRow) :
  manifest_text w = Some text → _read_manifest text = inr rows → rows ≠ [] →
  child w = None →
  let log_file := PurePath.of_str (Args.log_dir args)
                  // ("gdc_download_" +:+ ts_log w +:+ ".log") in
  outcome (main fmt_pct args w) = inl LaunchFailed
  ∧ opened (trace (main fmt_pct args w)) = [log_file]
  ∧ length (written (trace (main fmt_pct args w)))
    = (if token_given (Args.token_file args) then 6 else 5)
  ∧ printed (trace (main fmt_pct args w)) = []
  ∧ Forall (λ e, is_popen e = false) (trace (main fmt_pct args w)).
Proof.
  intros Hm Hr Hne Hc log_file. subst log_file.
  unfold main. rewrite Hm, Hr, Hc. unfold lift, raise. eff_norm'.
  replace (length rows =? 0) with false by (by destruct rows).
  destruct (token_given (Args.token_file args)); eff_norm';
    rewrite (bind_raises _ _ [] LaunchFailed eq_refl);
    cbn [trace outcome fst snd app];
    (split; [reflexivity|]); (split; [reflexivity|]);
    (split; [reflexivity|]); (split; [reflexivity|]);
    repeat (apply Forall_cons; split; [reflexivity|]); apply Forall_nil_2.
Qed.

(** X13: when the child exits 0 and verification was not requested, the
    orchestrator returns 0 whatever is on disk and whatever fail_on_verify
    is, writes no report record and opens no file but the log. *)
Theorem no_verify_returns_zero (fmt_pct : nat → nat → string)
    (args : Args.t) (w : World) (rows : list ManifestRow) (proc : ChildRun) :
  launches w rows proc → returncode proc = 0%Z →
  Args.verify_after args = false →
  let log_file := PurePath.of_str (Args.log_dir args)
                  // ("gdc_download_" +:+ ts_log w +:+ ".log") in
  outcome (main fmt_pct args w) = inr 0%Z
  ∧ Forall (λ e, is_report_write e = false) (trace (main fmt_pct args w))
  ∧ opened (trace (main fmt_pct args w)) = [log_file].
Proof.
  intros Hlaunch Hrc Hv log_file. subst log_file.
  assert (∃ cmd t,
    main fmt_pct args w
    = ([Mkdir (PurePath.of_str (Args.out_dir args)) true true;
        Mkdir (PurePath.of_str (Args.log_dir args)) true true;
        OpenFile (PurePath.of_str (Args.log_dir args)
                  // ("gdc_download_" +:+ ts_log w +:+ ".log")) "w"] ++ t,
       inr 0%Z)
    ∧ Forall (λ e, creates e = false ∨ e = Popen cmd) t)
    as (cmd & t & -> & Ht).
  { main_launched fmt_pct args w proc rows Hlaunch.
    assert (∀ cmd, Forall (λ e, creates e = false ∨ e = Popen cmd) tp) as Hqp'.
    { intros cmd. eapply Forall_impl; [done|]. by left. }
    assert (∀ cmd, Forall (λ e, creates e = false ∨ e = Popen cmd) tl) as Hql'.
    { intros cmd. eapply Forall_impl; [done|]. by left. }
    rewrite Hrc, Hv.
    destruct (token_given (Args.token_file args));
      eff_norm'; cbn [Z.eqb negb]; eff_norm'; cbn [app];
      do 2 eexists; (split; [reflexivity|]);
      repeat first
        [ apply Forall_nil_2
        | apply Forall_cons; split; [by (left + right)|]
        | apply Forall_app; split; [by (apply Hqp' + apply Hql')|] ]. }
  destruct (no_creation_trace cmd t Ht) as [Hw Ho].
  cbn [trace outcome fst snd]. split; [done|]. split.
  - apply Forall_app. split; [by repeat constructor|done].
  - unfold opened in *. by rewrite omap_app, Ho.
Qed.


(** ** Elapsed time, expected path and excerpt *)

Lemma fmt_02d_small :
  forallb (λ k, let n := Z.of_nat k in
                (String.length (Py.fmt_02d n) =? 2)
                && bool_decide (parse_int (Py.fmt_02d n) = Some n))
    (seq 0 100) = true.
Proof. by vm_compute. Qed.

Lemma fmt_02d_two_digits (n : Z) :
  (0 ≤ n < 100)%Z →
  String.length (Py.fmt_02d n) = 2 ∧ parse_int (Py.fmt_02d n) = Some n.
Proof.
  intros Hn. pose proof fmt_02d_small as H.
  rewrite forallb_forall in H.
  specialize (H (Z.to_nat n)). rewrite Z2Nat.id in H by lia.
  cbn zeta in H. apply andb_true_iff in H as [H1 H2].
  - split; [by apply Nat.eqb_eq|by apply bool_decide_eq_true_1 in H2].
  - apply in_seq. lia.
Qed.

(** X14: below one hundred hours the elapsed time is rendered as three
    fields of two digits between colons, which read back as hours, minutes
    under 60 and seconds under 60 adding up to the number of seconds; the
    hours are not reduced modulo 24. *)
Theorem fmt_elapsed_fields (s : Z) :
  (0 ≤ s < 360000)%Z →
  ∃ hh mm ss h m c,
    _fmt_elapsed s = hh +:+ ":" +:+ mm +:+ ":" +:+ ss
    ∧ String.length hh = 2 ∧ String.length mm = 2 ∧ String.length ss = 2
    ∧ parse_int hh = Some h ∧ parse_int mm = Some m ∧ parse_int ss = Some c
    ∧ (h * 3600 + m * 60 + c = s ∧ 0 ≤ m < 60 ∧ 0 ≤ c < 60)%Z.
Proof.
  intros Hs. unfold _fmt_elapsed. cbn zeta.
  destruct (fmt_02d_two_digits (s / 3600)) as [Lh Ph];
    [Z.div_mod_to_equations; lia|].
  destruct (fmt_02d_two_digits (s mod 3600 / 60)) as [Lm Pm];
    [Z.div_mod_to_equations; lia|].
  destruct (fmt_02d_two_digits (s mod 60)) as [Lc Pc];
    [Z.div_mod_to_equations; lia|].
  do 6 eexists. split; [reflexivity|].
  repeat (split; [eassumption|]).
  Z.div_mod_to_equations; lia.
Qed.

(** X15: for identifiers and file names that are single path components,
    two rows have the same expected path only if they have the same
    identifier and the same file name. *)
Theorem expected_path_injective (out_dir : Path)
    (id1 filename1 id2 filename2 : string) :
  single_component id1 = true → single_component filename1 = true →
  single_component id2 = true → single_component filename2 = true →
  _expected_path out_dir id1 filename1 = _expected_path out_dir id2 filename2 →
  id1 = id2 ∧ filename1 = filename2.
Proof.
  intros H1 H2 H3 H4. unfold _expected_path.
  rewrite (join_single out_dir id1 H1), (join_single out_dir id2 H3).
  rewrite (join_single _ filename1 H2), (join_single _ filename2 H4).
  cbn [root names]. intros [= Heq].
  rewrite <- !app_assoc in Heq. apply app_inv_head in Heq. by injection Heq.
Qed.

Lemma join_nothing (p : Path) (s : string) :
  s = "" ∨ s = "." → p // s = p.
Proof.
  intros [-> | ->]; unfold PurePath.join; cbn; rewrite app_nil_r; by destruct p.
Qed.

(** X16: an identifier that is empty or [.] adds no directory level; an
    identifier that begins with a slash makes the expected path independent
    of the output root; a file name that begins with a slash is the
    expected path on its own. *)
Theorem expected_path_degenerate (out_dir : Path) (file_id filename : string) :
  (file_id = "" ∨ file_id = "." →
   _expected_path out_dir file_id filename = out_dir // filename)
  ∧ (PurePath.is_absolute_str file_id = true →
     _expected_path out_dir file_id filename
     = PurePath.of_str file_id // filename)
  ∧ (PurePath.is_absolute_str filename = true →
     _expected_path out_dir file_id filename = PurePath.of_str filename).
Proof.
  unfold _expected_path. split; [|split].
  - intros H. by rewrite (join_nothing out_dir file_id H).
  - intros H. unfold PurePath.join at 2. by rewrite H.
  - intros H. unfold PurePath.join at 1. by rewrite H.
Qed.

Lemma str_length_app (a b : string) :
  String.length (a +:+ b) = String.length a + String.length b.
Proof.
  induction a as [|c a IH]; [done|].
  change (S (String.length (a +:+ b)) = S (String.length a) + String.length b).
  by rewrite IH.
Qed.

Lemma slice_to_spec (n : nat) (s : string) :
  (∃ rest, s = Py.slice_to n s +:+ rest)
  ∧ String.length (Py.slice_to n s) = Nat.min n (String.length s)
  ∧ (String.length s ≤ n → Py.slice_to n s = s).
Proof.
  revert s. induction n as [|n IH]; intros [|a s]; cbn [Py.slice_to String.length].
  - split; [by exists ""|]. by split.
  - split; [by exists (String a s)|]. split; [done|]. lia.
  - split; [by exists ""|]. by split.
  - destruct (IH s) as ([rest Hrest] & Hlen & Hall). split; [|split].
    + exists rest.
      change (String a s = String a (Py.slice_to n s +:+ rest)). by rewrite <- Hrest.
    + cbn [Nat.min]. by rewrite Hlen.
    + intros H. rewrite Hall; [done|lia].
Qed.

(** X17: the excerpt of the progress line is the beginning of the tail,
    all of it when the tail has at most 120 characters and its first 120
    otherwise; with its label the excerpt never exceeds 129 characters. *)
Theorem excerpt_is_a_prefix (tail : string) :
  (∃ rest, tail = Py.slice_to 120 tail +:+ rest)
  ∧ String.length (Py.slice_to 120 tail) = Nat.min 120 (String.length tail)
  ∧ (String.length tail ≤ 120 → Py.slice_to 120 tail = tail)
  ∧ String.length (tail_short tail) ≤ 129.
Proof.
  destruct (slice_to_spec 120 tail) as (Hp & Hl & Ha).
  split; [done|]. split; [done|]. split; [done|].
  rewrite tail_short_cases.
  destruct (existsb _ keywords); [|cbn; lia].
  rewrite str_length_app, Hl.
  change (String.length " | last: ") with 9. lia.
Qed.


(** ** Instances *)

Lemma read_manifest_fields_clean_witness :
  (Py.tab ∉ chars "id1") ∧ (Py.nl ∉ chars "id1")
  ∧ (Py.tab ∉ chars "f1.txt") ∧ (Py.nl ∉ chars "f1.txt").
Proof.
  apply (read_manifest_fields_clean Sample.text Sample.rows eq_refl
           {| id := "id1"; filename := "f1.txt" |}).
  apply list_elem_of_here.
Defined.

Lemma verify_clean_iff_all_present_witness :
  (1 = 0 ∧ 1 = 0
   ↔ ∀ r, r ∈ Sample.rows →
         ∃ n, Sample.fs_partial
                (_expected_path (PurePath.of_str "out") (id r) (filename r))
              = Some n ∧ st_size n ≠ 0%N)
  ∧ (1 = 0 ∧ 1 = 0 → 1 = length Sample.rows).
Proof.
  apply (verify_clean_iff_all_present Sample.fs_partial Sample.rows
           (PurePath.of_str "out") (PurePath.of_str "logs/report.csv") 1 1 1).
  by vm_compute.
Defined.

Lemma counts_split_over_concatenation_witness :
  outcome (_verify_download Sample.fs_partial (Sample.rows ++ Sample.rows)
             (PurePath.of_str "out") (PurePath.of_str "logs/report.csv"))
  = inr (1 + 1, 1 + 1, 1 + 1).
Proof.
  apply (proj2 (counts_split_over_concatenation Sample.fs_partial Sample.rows
                  Sample.rows (PurePath.of_str "out")
                  (PurePath.of_str "logs/report.csv")));
    by vm_compute.
Defined.

Lemma poll_loop_cadence_witness :
  printed (trace (poll_loop Sample.fmt_pct (PurePath.of_str "logs/run.log")
                    (PurePath.of_str "out") Sample.rows 3 0 10 ""
                    (running (Sample.proc 0)) (exited (Sample.proc 0))))
  !! 1%nat
  = Some (progress_msg Sample.fmt_pct 2 3 "00:00:12" 0 "done").
Proof.
  destruct (poll_loop_cadence Sample.fmt_pct (PurePath.of_str "logs/run.log")
              (PurePath.of_str "out") Sample.rows 3 0 10
              (running (Sample.proc 0)) (exited (Sample.proc 0)) "")
    as (_ & _ & _ & _ & _ & H).
  apply (H 1%nat (exited (Sample.proc 0))). reflexivity.
Defined.


Lemma manifest_error_aborts_witness :
  main Sample.fmt_pct Sample.args More.world_unreadable
  = ([Mkdir (PurePath.of_str "out") true true;
      Mkdir (PurePath.of_str "logs") true true], inl ManifestUnreadable).
Proof.
  apply (proj1 (manifest_error_aborts Sample.fmt_pct Sample.args
                  More.world_unreadable)).
  reflexivity.
Defined.

Lemma launch_failure_raises_witness :
  outcome (main Sample.fmt_pct Sample.args More.world_no_launch)
  = inl LaunchFailed
  ∧ opened (trace (main Sample.fmt_pct Sample.args More.world_no_launch))
    = [PurePath.of_str "logs" // "gdc_download_20240101_000000.log"]
  ∧ length (written (trace (main Sample.fmt_pct Sample.args
                              More.world_no_launch)))
    = (if token_given (Args.token_file Sample.args) then 6 else 5)
  ∧ printed (trace (main Sample.fmt_pct Sample.args More.world_no_launch)) = []
  ∧ Forall (λ e, is_popen e = false)
      (trace (main Sample.fmt_pct Sample.args More.world_no_launch)).
Proof.
  apply (launch_failure_raises Sample.fmt_pct Sample.args More.world_no_launch
           Sample.text Sample.rows); [reflexivity|reflexivity|done|reflexivity].
Defined.

Lemma no_verify_returns_zero_witness :
  outcome (main Sample.fmt_pct More.args_no_verify (Sample.world 0)) = inr 0%Z
  ∧ Forall (λ e, is_report_write e = false)
      (trace (main Sample.fmt_pct More.args_no_verify (Sample.world 0)))
  ∧ opened (trace (main Sample.fmt_pct More.args_no_verify (Sample.world 0)))
    = [PurePath.of_str "logs" // "gdc_download_20240101_000000.log"].
Proof.
  apply (no_verify_returns_zero Sample.fmt_pct More.args_no_verify
           (Sample.world 0) Sample.rows (Sample.proc 0));
    [apply sample_launches|reflexivity|reflexivity].
Defined.

Lemma fmt_elapsed_fields_witness :
  ∃ hh mm ss h m c,
    _fmt_elapsed 3725 = hh +:+ ":" +:+ mm +:+ ":" +:+ ss
    ∧ String.length hh = 2 ∧ String.length mm = 2 ∧ String.length ss = 2
    ∧ parse_int hh = Some h ∧ parse_int mm = Some m ∧ parse_int ss = Some c
    ∧ (h * 3600 + m * 60 + c = 3725 ∧ 0 ≤ m < 60 ∧ 0 ≤ c < 60)%Z.
Proof. apply (fmt_elapsed_fields 3725). lia. Defined.

Lemma expected_path_injective_witness : "id1" = "id1" ∧ "f1.txt" = "f1.txt".
Proof.
  apply (expected_path_injective (PurePath.of_str "out")
           "id1" "f1.txt" "id1" "f1.txt"); reflexivity.
Defined.

Lemma expected_path_degenerate_witness :
  _expected_path (PurePath.of_str "out") "" "f1.txt"
  = PurePath.of_str "out" // "f1.txt".
Proof.
  apply (proj1 (expected_path_degenerate (PurePath.of_str "out") "" "f1.txt")).
  by left.
Defined.

Lemma excerpt_is_a_prefix_witness : Py.slice_to 120 "done" = "done".
Proof.
  apply (proj1 (proj2 (proj2 (excerpt_is_a_prefix "done")))).
  cbn. lia.
Defined.
